(** * The PDF summarizer controller (src/App.js)

    A shallow embedding of the [App] component: its five state cells, the
    two event handlers [handleFileChange] and [summarizeText], the
    callbacks they leave pending ([reader.onload], the continuation of
    [await fetch]), and the part of the JavaScript run time the handlers
    lean on when they probe the decoded response. *)

From Stdlib Require Import String Ascii List Bool Arith ZArith Lia.
From Stdlib Require Import DecimalString SpecFloat.
Import ListNotations.

Local Open Scope list_scope.
Local Open Scope string_scope.

(** ** Strings

    A JS string is a sequence of code units.  The controller concatenates
    strings, measures them and tests them for emptiness; it never looks
    inside a code unit, so a [string] stands for one, character for
    code unit. *)

Definition LF : string := String (ascii_of_nat 10) EmptyString.

(** [Array.prototype.join] on an array of strings. *)
Fixpoint join (sep : string) (parts : list string) : string :=
  match parts with
  | [] => ""
  | x :: rest =>
      match rest with
      | [] => x
      | _ :: _ => x ++ sep ++ join sep rest
      end
  end.

(** [str.repeat(n)], to build long inputs. *)
Fixpoint repeat_string (s : string) (n : nat) : string :=
  match n with
  | O => ""
  | S k => s ++ repeat_string s k
  end.

(** ** Completions

    A computation either returns or throws; the handlers only ever tell
    that something was thrown, never what. *)

Inductive Completion (A : Type) : Type :=
| Normal (a : A)
| Throw.

Arguments Normal {A} a.
Arguments Throw {A}.

Definition cbind {A B} (c : Completion A) (k : A -> Completion B) : Completion B :=
  match c with
  | Normal a => k a
  | Throw => Throw
  end.

Declare Scope completion_scope.
Delimit Scope completion_scope with comp.
Notation "x <- c ;; k" := (cbind c (fun x => k))
  (at level 61, c at next level, right associativity) : completion_scope.

(** ** JavaScript values

    What [JSON.parse] can return, and [undefined], which reading a missing
    property gives.  A number is an IEEE-754 double. *)

Definition Number : Type := spec_float.

Definition number_zero : Number := S754_zero false.
Definition number_NaN : Number := S754_nan.

(** The double of a length.  Lengths stay below 2^53, where shifting the
    mantissa into place is exact. *)
Definition number_of_nat (n : nat) : Number :=
  match n with
  | O => number_zero
  | S k =>
      let p := Pos.of_succ_nat k in
      let '(m, e) := shl_align p 0 (fexp 53 1024 (Zpos (digits2_pos p))) in
      S754_finite false m e
  end.

#[local] Set Warnings "-register-all".
Inductive JSValue : Type :=
| JSUndefined
| JSNull
| JSBool (b : bool)
| JSNumber (n : Number)
| JSString (s : string)
| JSArray (elems : list JSValue)
| JSObject (props : list (string * JSValue)).

(** An own property of a decoded object; [undefined] when there is none.
    The first binding of a key is the object's. *)
Fixpoint own_property (p : string) (props : list (string * JSValue)) : JSValue :=
  match props with
  | [] => JSUndefined
  | (k, v) :: rest => if String.eqb k p then v else own_property p rest
  end.

Fixpoint has_own_property (p : string) (props : list (string * JSValue)) : bool :=
  match props with
  | [] => false
  | (k, _) :: rest => String.eqb k p || has_own_property p rest
  end.

Definition string_of_nat (n : nat) : string :=
  NilZero.string_of_uint (Nat.to_uint n).

(** The index a property key names in an array-like of [len] elements. *)
Definition index_of_key (p : string) (len : nat) : option nat :=
  find (fun i => String.eqb (string_of_nat i) p) (seq 0 len).

(** [ToBoolean]. *)
Definition ToBoolean (v : JSValue) : bool :=
  match v with
  | JSUndefined | JSNull => false
  | JSBool b => b
  | JSNumber n =>
      match SFcompare n number_zero with
      | Some Eq | None => false
      | Some _ => true
      end
  | JSString s => negb (String.eqb s "")
  | JSArray _ | JSObject _ => true
  end.

(** [v.p] and [v[i]] for the keys the controller reads: candidates,
    length, 0, content, parts, text, error, message, promptFeedback and
    blockReason.  No prototype carries a property of one of these names,
    so what is not an own property is [undefined]; reading a property of
    [null] or [undefined] throws a TypeError. *)
Definition Get (v : JSValue) (p : string) : Completion JSValue :=
  match v with
  | JSUndefined | JSNull => Throw
  | JSBool _ | JSNumber _ => Normal JSUndefined
  | JSString s =>
      if String.eqb p "length" then Normal (JSNumber (number_of_nat (String.length s)))
      else match index_of_key p (String.length s) with
           | Some i => Normal (JSString (substring i 1 s))
           | None => Normal JSUndefined
           end
  | JSArray elems =>
      if String.eqb p "length" then Normal (JSNumber (number_of_nat (List.length elems)))
      else match index_of_key p (List.length elems) with
           | Some i => Normal (nth i elems JSUndefined)
           | None => Normal JSUndefined
           end
  | JSObject props => Normal (own_property p props)
  end.

(** [x === 0]: only a number is strictly equal to a number, and both
    zeros are. *)
Definition strictly_equals_zero (v : JSValue) : bool :=
  match v with
  | JSNumber n => SFeqb n number_zero
  | _ => false
  end.

(** [v.p1.p2...]: the properties are read left to right, and the first
    read of [null] or [undefined] throws. *)
Fixpoint get_path (v : JSValue) (path : list string) : Completion JSValue :=
  match path with
  | [] => Normal v
  | p :: rest => (x <- Get v p ;; get_path x rest)%comp
  end.

(** [a && b] under [if]: [b] is evaluated only when [a] is truthy. *)
Definition and_also (a b : Completion bool) : Completion bool :=
  (x <- a ;; if x then b else Normal false)%comp.

Definition truthy_at (v : JSValue) (path : list string) : Completion bool :=
  (x <- get_path v path ;; Normal (ToBoolean x))%comp.

(** ** What the controller is handed

    The file picked in the input, and pdf.js as [window.pdfjsLib]
    exposes it: a document has [numPages] pages, numbered from 1, and a
    page's text content is a list of items, each with its [str].  Every
    call into the library may throw or reject. *)

Record File : Type := {
  name : string;
  type : string;
  bytes : list Byte.byte
}.

Record TextItem : Type := { str : string }.

Record TextContent : Type := { items : list TextItem }.

Record PDFPageProxy : Type := {
  getTextContent : Completion TextContent
}.

Record PDFDocumentProxy : Type := {
  numPages : nat;
  getPage : nat -> Completion PDFPageProxy
}.

Record PdfjsLib : Type := {
  getDocument : list Byte.byte -> Completion PDFDocumentProxy
}.

(** [window.pdfjsLib] is [undefined] when the script was not loaded. *)
Record Window : Type := {
  pdfjsLib : option PdfjsLib
}.

(** The request [fetch] is called with; [payload] is the value that
    [JSON.stringify] turns into the body. *)
Record FetchRequest : Type := {
  url : string;
  method : string;
  headers : list (string * string);
  payload : JSValue
}.

(** How [await fetch(...)] followed by [await response.json()] ends. *)
Inductive FetchOutcome : Type :=
| FetchRejected
| JsonRejected (ok : bool)
| Responded (ok : bool) (result : JSValue).

(** ** The component state: the five [useState] cells *)

Record State : Type := {
  pdfFile : option File;
  extractedText : string;
  summary : JSValue;
  loading : bool;
  error : string
}.

Definition initial_state : State :=
  {| pdfFile := None; extractedText := ""; summary := JSString "";
     loading := false; error := "" |}.

(** A handler runs on the state, may change it, and returns or throws;
    what it changed before throwing stays changed. *)
Definition Handler (A : Type) : Type := State -> Completion A * State.

Definition ret {A} (a : A) : Handler A := fun s => (Normal a, s).

Definition bind {A B} (m : Handler A) (k : A -> Handler B) : Handler B :=
  fun s =>
    match m s with
    | (Normal a, s') => k a s'
    | (Throw, s') => (Throw, s')
    end.

Definition throw {A} : Handler A := fun s => (Throw, s).

Definition lift {A} (c : Completion A) : Handler A := fun s => (c, s).

Definition try_catch {A} (body handler : Handler A) : Handler A :=
  fun s =>
    match body s with
    | (Normal a, s') => (Normal a, s')
    | (Throw, s') => handler s'
    end.

Definition try_finally {A} (body : Handler A) (finalizer : Handler unit) : Handler A :=
  fun s =>
    match body s with
    | (c, s') =>
        match finalizer s' with
        | (Normal _, s'') => (c, s'')
        | (Throw, s'') => (Throw, s'')
        end
    end.

Definition setPdfFile (f : option File) : Handler unit :=
  fun s => (Normal tt,
            {| pdfFile := f; extractedText := extractedText s; summary := summary s;
               loading := loading s; error := error s |}).

Definition setExtractedText (t : string) : Handler unit :=
  fun s => (Normal tt,
            {| pdfFile := pdfFile s; extractedText := t; summary := summary s;
               loading := loading s; error := error s |}).

Definition setSummary (v : JSValue) : Handler unit :=
  fun s => (Normal tt,
            {| pdfFile := pdfFile s; extractedText := extractedText s; summary := v;
               loading := loading s; error := error s |}).

Definition setLoading (b : bool) : Handler unit :=
  fun s => (Normal tt,
            {| pdfFile := pdfFile s; extractedText := extractedText s; summary := summary s;
               loading := b; error := error s |}).

Definition setError (msg : string) : Handler unit :=
  fun s => (Normal tt,
            {| pdfFile := pdfFile s; extractedText := extractedText s; summary := summary s;
               loading := loading s; error := msg |}).

Declare Scope handler_scope.
Delimit Scope handler_scope with handler.
Notation "x <- c ;; k" := (bind c (fun x => k))
  (at level 61, c at next level, right associativity) : handler_scope.
Notation "c ;; k" := (bind c (fun _ => k))
  (at level 61, right associativity) : handler_scope.

(** ** The fixed messages of the controller *)

Definition MSG_LIBRARY_MISSING : string :=
  "PDF.js library not loaded. Please ensure it is linked correctly in index.html and try again.".

Definition MSG_EXTRACTION_FAILED : string :=
  "Failed to extract text from PDF. Please ensure it's a valid PDF and not password protected.".

Definition MSG_NOT_A_PDF : string := "Please upload a valid PDF file.".

Definition MSG_NO_TEXT : string :=
  "No text extracted to summarize. Please upload a PDF first.".

Definition MSG_TOO_LONG : string :=
  "The extracted text is very long (over 50,000 characters). Please try a smaller PDF or a more concise document, or consider using a different summarization approach for very large texts.".

Definition MSG_NO_CANDIDATES : string :=
  "The AI did not provide any summary candidates. The content might be too sensitive or inappropriate for the model.".

Definition MSG_UNEXPECTED : string :=
  "Failed to get a summary from the AI. The response structure was unexpected.".

Definition MSG_NETWORK : string :=
  "An error occurred while summarizing the text. Please check your internet connection or try again later. (Network Error/CORS issue)".

Definition api_error_message (m : string) : string := "API Error: " ++ m.

Definition blocked_message (reason : string) : string :=
  "Summary blocked due to: " ++ reason ++ ". Content might violate safety policies.".

Section Runtime.

(** The two conversions between doubles and their decimal text
    ([Number::toString] and [StringToNumber]) are the engine's. *)
Variable number_to_string : Number -> string.
Variable string_to_number : string -> Number.

(** [ToString], as a template literal applies it.  A decoded object has
    no callable of its own: one that shadows [toString] cannot be
    converted, any other prints as [[object Object]]; an array prints as
    its elements joined by commas, [null] and [undefined] as nothing. *)
Fixpoint ToString (v : JSValue) : Completion string :=
  match v with
  | JSUndefined => Normal "undefined"
  | JSNull => Normal "null"
  | JSBool b => Normal (if b then "true" else "false")
  | JSNumber n => Normal (number_to_string n)
  | JSString s => Normal s
  | JSArray elems =>
      (fix join_elems (l : list JSValue) : Completion string :=
         match l with
         | [] => Normal ""
         | x :: rest =>
             (s <- match x with
                   | JSUndefined | JSNull => Normal ""
                   | _ => ToString x
                   end ;;
              match rest with
              | [] => Normal s
              | _ :: _ => (r <- join_elems rest ;; Normal (s ++ "," ++ r)%string)
              end)%comp
         end) elems
  | JSObject props =>
      if has_own_property "toString" props then Throw
      else Normal "[object Object]"
  end.

(** [ToNumber].  An object has no primitive value of its own, so it is
    converted through its string. *)
Definition ToNumber (v : JSValue) : Completion Number :=
  match v with
  | JSUndefined => Normal number_NaN
  | JSNull => Normal number_zero
  | JSBool b => Normal (if b then number_of_nat 1 else number_zero)
  | JSNumber n => Normal n
  | JSString s => Normal (string_to_number s)
  | JSArray _ | JSObject _ => (s <- ToString v ;; Normal (string_to_number s))%comp
  end.

(** [x > 0]. *)
Definition greater_than_zero (v : JSValue) : Completion bool :=
  (n <- ToNumber v ;; Normal (SFltb number_zero n))%comp.

(** ** File intake: [handleFileChange]

    The handler runs to the call of [reader.readAsArrayBuffer]; it returns
    the new state and the file it handed to the reader, if any.  [file] is
    [event.target.files[0]], [undefined] when nothing was picked. *)

Definition handleFileChange (file : option File) (s : State) : State * option File :=
  match file with
  | Some f =>
      if String.eqb (type f) "application/pdf" then
        (snd ((setPdfFile (Some f) ;;
               setExtractedText "" ;;
               setSummary (JSString "") ;;
               setError "" ;;
               setLoading true)%handler s),
         Some f)
      else
        (snd ((setPdfFile None ;;
               setExtractedText "" ;;
               setSummary (JSString "") ;;
               setError MSG_NOT_A_PDF)%handler s),
         None)
  | None =>
      (snd ((setPdfFile None ;;
             setExtractedText "" ;;
             setSummary (JSString "") ;;
             setError MSG_NOT_A_PDF)%handler s),
       None)
  end.

(** ** Text extraction: [reader.onload]

    The loop [for (let i = 1; i <= pdf.numPages; i++)]: [i] is the page
    asked for next and [remaining] counts the iterations left. *)

Fixpoint extract_pages (pdf : PDFDocumentProxy) (i remaining : nat) (fullText : string)
  : Completion string :=
  match remaining with
  | O => Normal fullText
  | S k =>
      (page <- getPage pdf i ;;
       textContent <- getTextContent page ;;
       extract_pages pdf (S i) k
         (fullText ++ (join " " (map str (items textContent)) ++ LF)))%comp
  end.

(** [result] is [e.target.result], the bytes the reader read.  pdf.js
    carries its [GlobalWorkerOptions], so setting [workerSrc] cannot
    throw. *)
Definition reader_onload (w : Window) (result : list Byte.byte) : Handler unit :=
  try_catch
    (match pdfjsLib w with
     | None =>
         (setError MSG_LIBRARY_MISSING ;;
          setLoading false)%handler
     | Some lib =>
         (pdf <- lift (getDocument lib result) ;;
          fullText <- lift (extract_pages pdf 1 (numPages pdf) "") ;;
          setExtractedText fullText ;;
          setLoading false)%handler
     end)
    (setError MSG_EXTRACTION_FAILED ;;
     setLoading false)%handler.

(** ** Summarization: [summarizeText] *)

Definition MAX_LENGTH : Z := 50000.

Definition prompt_for (text : string) : string :=
  "Summarize the following text:" ++ LF ++ LF ++ text.

Definition request_for (text : string) : FetchRequest :=
  {| url := "https://generativelanguage.googleapis.com/v1beta/models/gemini-2.0-flash:generateContent?key=";
     method := "POST";
     headers := [("Content-Type", "application/json")];
     payload :=
       JSObject [("contents",
                  JSArray [JSObject [("role", JSString "user");
                                     ("parts", JSArray [JSObject [("text", JSString (prompt_for text))]])]])] |}.

(** The handler up to [await fetch(...)]: the two guards, then the
    clearing of the previous result, then the call.  It returns the new
    state and the request it sent, if any. *)
Definition summarizeText_begin (s : State) : State * option FetchRequest :=
  if String.eqb (extractedText s) "" then
    (snd (setError MSG_NO_TEXT s), None)
  else if (MAX_LENGTH <? Z.of_nat (String.length (extractedText s)))%Z then
    (snd (setError MSG_TOO_LONG s), None)
  else
    (snd ((setLoading true ;;
           setSummary (JSString "") ;;
           setError "")%handler s),
     Some (request_for (extractedText s))).

(** The test of the [if] on the decoded response. *)
Definition is_success (ok : bool) (result : JSValue) : Completion bool :=
  and_also (Normal ok)
 (and_also (truthy_at result ["candidates"])
 (and_also (len <- get_path result ["candidates"; "length"] ;; greater_than_zero len)%comp
 (and_also (truthy_at result ["candidates"; "0"; "content"])
 (and_also (truthy_at result ["candidates"; "0"; "content"; "parts"])
           (len <- get_path result ["candidates"; "0"; "content"; "parts"; "length"] ;;
            greater_than_zero len)%comp)))).

(** The [else] branch: the chain of tests on the common error shapes. *)
Definition report_failure (result : JSValue) : Handler unit :=
  (has_message <- lift (and_also (truthy_at result ["error"])
                                 (truthy_at result ["error"; "message"])) ;;
   if has_message then
     (m <- lift (v <- get_path result ["error"; "message"] ;; ToString v)%comp ;;
      setError (api_error_message m))
   else
     (is_blocked <- lift (and_also (truthy_at result ["promptFeedback"])
                                   (truthy_at result ["promptFeedback"; "blockReason"])) ;;
      if is_blocked then
        (r <- lift (v <- get_path result ["promptFeedback"; "blockReason"] ;; ToString v)%comp ;;
         setError (blocked_message r))
      else
        (no_candidates <- lift (and_also (truthy_at result ["candidates"])
                                  (len <- get_path result ["candidates"; "length"] ;;
                                   Normal (strictly_equals_zero len))%comp) ;;
         if no_candidates then setError MSG_NO_CANDIDATES
         else setError MSG_UNEXPECTED)))%handler.

Definition inspect_response (ok : bool) (result : JSValue) : Handler unit :=
  (success <- lift (is_success ok result) ;;
   if success then
     (text <- lift (get_path result ["candidates"; "0"; "content"; "parts"; "0"; "text"]) ;;
      setSummary text)
   else report_failure result)%handler.

(** The handler from the point where [await fetch(...)] settles: the rest
    of the [try], the [catch] and the [finally]. *)
Definition summarizeText_resume (o : FetchOutcome) : Handler unit :=
  try_finally
    (try_catch
       (match o with
        | FetchRejected => throw
        | JsonRejected _ => throw
        | Responded ok result => inspect_response ok result
        end)
       (setError MSG_NETWORK))
    (setLoading false).

(** One whole attempt against a network that answers [fetch]: the final
    state and the requests that went out. *)
Definition summarizeText (fetch : FetchRequest -> FetchOutcome) (s : State)
  : State * list FetchRequest :=
  match summarizeText_begin s with
  | (s1, None) => (s1, [])
  | (s1, Some req) => (snd (summarizeText_resume (fetch req) s1), [req])
  end.

(** One whole extraction of a picked file in the environment [w]: the
    state once [reader.onload] has run, and whether the reader was
    started. *)
Definition selectAndExtract (w : Window) (file : option File) (s : State) : State * bool :=
  match handleFileChange file s with
  | (s1, None) => (s1, false)
  | (s1, Some f) => (snd (reader_onload w (bytes f) s1), true)
  end.

(** ** The page as a transition system

    What is rendered decides which handler can run: the file input is
    always there; the button is rendered under [extractedText && ...] with
    [disabled={loading}].  A read handed to the reader and a request
    handed to [fetch] stay pending until their callback runs; the reader
    is given no [onerror], so a read that fails runs nothing. *)

Definition summarize_button_shown (s : State) : bool :=
  negb (String.eqb (extractedText s) "").

Definition summarize_button_enabled (s : State) : bool :=
  summarize_button_shown s && negb (loading s).

Record App : Type := {
  ui : State;
  reading : list File;
  fetching : list FetchRequest
}.

Definition initial_app : App :=
  {| ui := initial_state; reading := []; fetching := [] |}.

Inductive Event : Type :=
| FileChange (file : option File)
| ReaderLoad (i : nat) (w : Window)
| SummarizeClick
| FetchSettle (i : nat) (o : FetchOutcome).

Fixpoint remove_nth {A} (i : nat) (l : list A) : list A :=
  match i, l with
  | _, [] => []
  | O, _ :: rest => rest
  | S k, x :: rest => x :: remove_nth k rest
  end.

Definition pending {A} (o : option A) : list A :=
  match o with
  | Some a => [a]
  | None => []
  end.

(** [dispatch e a] is the page after event [e]; [None] when [e] cannot
    happen in [a]. *)
Definition dispatch (e : Event) (a : App) : option App :=
  match e with
  | FileChange file =>
      let '(s, read) := handleFileChange file (ui a) in
      Some {| ui := s; reading := reading a ++ pending read; fetching := fetching a |}
  | ReaderLoad i w =>
      match nth_error (reading a) i with
      | Some f =>
          Some {| ui := snd (reader_onload w (bytes f) (ui a));
                  reading := remove_nth i (reading a);
                  fetching := fetching a |}
      | None => None
      end
  | SummarizeClick =>
      if summarize_button_enabled (ui a) then
        let '(s, req) := summarizeText_begin (ui a) in
        Some {| ui := s; reading := reading a; fetching := fetching a ++ pending req |}
      else None
  | FetchSettle i o =>
      match nth_error (fetching a) i with
      | Some _ =>
          Some {| ui := snd (summarizeText_resume o (ui a));
                  reading := reading a;
                  fetching := remove_nth i (fetching a) |}
      | None => None
      end
  end.

Fixpoint run (events : list Event) (a : App) : option App :=
  match events with
  | [] => Some a
  | e :: rest =>
      match dispatch e a with
      | Some a' => run rest a'
      | None => None
      end
  end.

(** The events with which an attempt is over: the reader's callback, the
    settling of the request, and a click that a guard turns away. *)
Definition concludes_attempt (e : Event) (a : App) : bool :=
  match e with
  | FileChange _ => false
  | ReaderLoad _ _ => true
  | SummarizeClick =>
      match snd (summarizeText_begin (ui a)) with
      | Some _ => false
      | None => true
      end
  | FetchSettle _ _ => true
  end.

(** ** The specification's side

    The notions the specification speaks in, written down from its words,
    to be compared with what the handlers compute. *)

(** "join its fragments with a single-space separator, then append a line
    break; concatenate all pages in order". *)
Definition spec_extracted_text (pages : list (list string)) : string :=
  String.concat "" (map (fun fragments => join " " fragments ++ LF) pages).

(** A field of a decoded JSON object, [undefined] when [v] is no object or
    has no such field. *)
Definition member (k : string) (v : JSValue) : JSValue :=
  match v with
  | JSObject props => own_property k props
  | _ => JSUndefined
  end.

(** "candidates[0].content.parts[0].text". *)
Definition first_candidate_text (result : JSValue) : option string :=
  match member "candidates" result with
  | JSArray (c :: _) =>
      match member "parts" (member "content" c) with
      | JSArray (p :: _) =>
          match member "text" p with
          | JSString x => Some x
          | _ => None
          end
      | _ => None
      end
  | _ => None
  end.





(** "zero candidates returned", as the run time sees it: [candidates] is
    there and its [length] is the number 0. *)
Definition no_candidates (result : JSValue) : bool :=
  match member "candidates" result with
  | JSArray [] => true
  | JSObject props => strictly_equals_zero (own_property "length" props)
  | _ => false
  end.

(** The priority order (a) to (d) on a decoded response, with "carries"
    read as the run time reads it (the field is truthy) and the field
    surfaced as a template literal prints it.  A body that is [null] has
    no fields to look at, and a field that cannot be printed cannot be
    surfaced: there the classification itself fails. *)
Definition failure_message (result : JSValue) : Completion string :=
  match result with
  | JSUndefined | JSNull => Throw
  | _ =>
      let m := member "message" (member "error" result) in
      let r := member "blockReason" (member "promptFeedback" result) in
      if ToBoolean m then (t <- ToString m ;; Normal (api_error_message t))%comp
      else if ToBoolean r then (t <- ToString r ;; Normal (blocked_message t))%comp
      else if no_candidates result then Normal MSG_NO_CANDIDATES
      else Normal MSG_UNEXPECTED
  end.

(** [null] and [undefined], the two values without properties. *)
Definition nullish (v : JSValue) : bool :=
  match v with
  | JSUndefined | JSNull => true
  | _ => false
  end.

(** A key that names neither [length] nor an index. *)
Definition named_key (k : string) : Prop :=
  String.eqb k "length" = false /\
  forall i, String.eqb (string_of_nat i) k = false.

(** A document that yields the fragment lists [pages], page by page. *)
Definition yields_fragments (pdf : PDFDocumentProxy) (pages : list (list string)) : Prop :=
  numPages pdf = List.length pages /\
  forall i fragments,
    nth_error pages i = Some fragments ->
    exists page textContent,
      getPage pdf (S i) = Normal page /\
      getTextContent page = Normal textContent /\
      map str (items textContent) = fragments.

(** ** Sample inputs

    Two documents, their files, and answers of the summarization
    endpoint, to run the controller on.  None of the sample answers has a
    number to print or a string to read as a number, so the two
    conversions of the run time are given only on what needs no digits. *)

Definition sample_number_to_string (n : Number) : string :=
  match n with
  | S754_infinity false => "Infinity"
  | S754_infinity true => "-Infinity"
  | S754_zero _ => "0"
  | _ => "NaN"
  end.

Definition sample_string_to_number (t : string) : Number :=
  if String.eqb t "" then number_zero
  else if String.eqb t "Infinity" then S754_infinity false
  else if String.eqb t "-Infinity" then S754_infinity true
  else number_NaN.

Definition sample_page (fragments : list string) : PDFPageProxy :=
  {| getTextContent := Normal {| items := map (fun t => {| str := t |}) fragments |} |}.

Definition sample_document (pages : list (list string)) : PDFDocumentProxy :=
  {| numPages := List.length pages;
     getPage := fun i =>
       match i with
       | O => Throw
       | S k =>
           match nth_error pages k with
           | Some fragments => Normal (sample_page fragments)
           | None => Throw
           end
       end |}.

Definition two_pages : list (list string) := [["Hello"; "world"]; ["Bye"]].

Definition long_fragment : string := repeat_string "a" (Z.to_nat 50000).

Definition one_long_page : list (list string) := [[long_fragment]].

Definition small_pdf : File :=
  {| name := "small.pdf"; type := "application/pdf"; bytes := [Byte.x01] |}.

Definition large_pdf : File :=
  {| name := "large.pdf"; type := "application/pdf"; bytes := [Byte.x02] |}.

Definition notes_txt : File :=
  {| name := "notes.txt"; type := "text/plain"; bytes := [Byte.x03] |}.

(** A pdf.js that decodes the two sample files and rejects any other
    bytes. *)
Definition sample_pdfjs : PdfjsLib :=
  {| getDocument := fun data =>
       match data with
       | [Byte.x01] => Normal (sample_document two_pages)
       | [Byte.x02] => Normal (sample_document one_long_page)
       | _ => Throw
       end |}.

Definition sample_window : Window := {| pdfjsLib := Some sample_pdfjs |}.

Definition bare_window : Window := {| pdfjsLib := None |}.

Definition candidate_response (text : string) : JSValue :=
  JSObject [("candidates",
             JSArray [JSObject [("content",
                                 JSObject [("parts", JSArray [JSObject [("text", JSString text)]]);
                                           ("role", JSString "model")])]])].

(** The state with the small document extracted. *)
Definition extracted_state : State :=
  {| pdfFile := Some small_pdf;
     extractedText := spec_extracted_text two_pages;
     summary := JSString "";
     loading := false;
     error := "" |}.

(** A text of exactly 50,000 characters, and one of 50,001. *)
Definition state_at_maximum : State :=
  {| pdfFile := Some large_pdf;
     extractedText := long_fragment;
     summary := JSString "";
     loading := false;
     error := "" |}.

Definition state_over_maximum : State :=
  {| pdfFile := Some large_pdf;
     extractedText := spec_extracted_text one_long_page;
     summary := JSString "";
     loading := false;
     error := "" |}.

(** The small document is summarized while the large one is picked: the
    answer arrives after the selection and the large text after the
    answer. *)
Definition overlapping_events : list Event :=
  [ FileChange (Some small_pdf);
    ReaderLoad 0 sample_window;
    SummarizeClick;
    FileChange (Some large_pdf);
    FetchSettle 0 (Responded true (candidate_response "A short summary."));
    ReaderLoad 0 sample_window ].

(** A network that gives every request the same outcome. *)
Definition answering (o : FetchOutcome) : FetchRequest -> FetchOutcome :=
  fun _ => o.

Definition api_error_response (message : string) : JSValue :=
  JSObject [("error", JSObject [("code", JSNumber (number_of_nat 400));
                                ("message", JSString message);
                                ("status", JSString "INVALID_ARGUMENT")])].

(** The page while the request for the small document is in flight, and
    once that request was rejected. *)
Definition summarizing_app : App :=
  {| ui := {| pdfFile := Some small_pdf;
              extractedText := spec_extracted_text two_pages;
              summary := JSString "";
              loading := true;
              error := "" |};
     reading := [];
     fetching := [request_for (spec_extracted_text two_pages)] |}.

Definition rejected_app : App :=
  {| ui := {| pdfFile := Some small_pdf;
              extractedText := spec_extracted_text two_pages;
              summary := JSString "";
              loading := false;
              error := MSG_NETWORK |};
     reading := [];
     fetching := [] |}.

(** The page with one read pending. *)
Definition reading_app : App :=
  {| ui := fst (handleFileChange (Some small_pdf) initial_state);
     reading := [small_pdf];
     fetching := [] |}.

(** The small document with a summary from an earlier attempt. *)
Definition summarized_state : State :=
  {| pdfFile := Some small_pdf;
     extractedText := spec_extracted_text two_pages;
     summary := JSString "An older summary.";
     loading := false;
     error := "" |}.

(** ** What is rendered

    The JSX of [App], as the blocks it shows and the texts in them.  A
    block under [x && (...)] is there when [x] is truthy; when [x] is
    falsy React renders [x] itself, which shows nothing unless [x] is a
    number.  The summary panel has the summary as a child: React renders
    text, numbers and the children of an array, nothing for [null],
    [undefined] and booleans, and throws on a plain object; the App has no
    error boundary, so the throw takes the whole page down. *)

Record ButtonView : Type := {
  disabled : bool;
  caption : string
}.

Inductive SummaryView : Type :=
| NoSummary
| BareNumber (text : string)
| SummaryPanel (content : JSValue).

Record View : Type := {
  upload_caption : string;
  spinner : option string;
  alert : option string;
  summarize_button : option ButtonView;
  summary_view : SummaryView
}.

(** What React accepts as a child. *)
Fixpoint displayable (v : JSValue) : bool :=
  match v with
  | JSObject _ => false
  | JSArray elems =>
      (fix all_displayable (l : list JSValue) : bool :=
         match l with
         | [] => true
         | x :: rest => displayable x && all_displayable rest
         end) elems
  | _ => true
  end.

Definition render (s : State) : Completion View :=
  if ToBoolean (summary s) && negb (displayable (summary s)) then Throw
  else Normal
  {| upload_caption :=
       match pdfFile s with
       | Some f => "Selected: " ++ name f
       | None => "Upload a PDF Document"
       end;
     spinner :=
       if loading s then
         Some (if negb (String.eqb (extractedText s) "") then "Summarizing..."
               else "Extracting text...")
       else None;
     alert :=
       if negb (String.eqb (error s) "") then Some (error s) else None;
     summarize_button :=
       if negb (String.eqb (extractedText s) "") then
         Some {| disabled := loading s;
                 caption := if loading s then "Summarizing..." else "Summarize PDF" |}
       else None;
     summary_view :=
       if ToBoolean (summary s) then SummaryPanel (summary s)
       else match summary s with
            | JSNumber n => BareNumber (number_to_string n)
            | _ => NoSummary
            end |}.

(** ** Use without overlap

    One operation at a time: a file is picked and its read runs to the
    end of [reader.onload], or the button, when it can be clicked, is
    clicked and the request runs to the end of [summarizeText].  On a
    page that React took down there is nothing left to operate. *)

Inductive Operation : Type :=
| Select (w : Window) (file : option File)
| Summarize (fetch : FetchRequest -> FetchOutcome).

Definition perform (op : Operation) (s : State) : State :=
  match render s with
  | Throw => s
  | Normal _ =>
      match op with
      | Select w file => fst (selectAndExtract w file s)
      | Summarize fetch =>
          if summarize_button_enabled s then fst (summarizeText fetch s) else s
      end
  end.

Definition perform_all (ops : list Operation) (s : State) : State :=
  fold_left (fun st op => perform op st) ops s.

(** ** Notions of the further properties *)

(** Page [i] cannot be read: [getPage] or [getTextContent] rejects. *)
Definition page_fails (pdf : PDFDocumentProxy) (i : nat) : bool :=
  match getPage pdf i with
  | Throw => true
  | Normal page =>
      match getTextContent page with
      | Throw => true
      | Normal _ => false
      end
  end.

(** A request for a text that both guards let through. *)
Definition guarded_request (r : FetchRequest) : Prop :=
  exists text,
    r = request_for text /\
    text <> "" /\
    (Z.of_nat (String.length text) <= MAX_LENGTH)%Z.

Definition is_pdf (f : File) : Prop := type f = "application/pdf".

(** What holds of every page reached from the initial one. *)
Definition page_invariant (a : App) : Prop :=
  Forall is_pdf (reading a) /\
  Forall guarded_request (fetching a) /\
  (forall f, pdfFile (ui a) = Some f -> is_pdf f) /\
  (loading (ui a) = true -> reading a <> [] \/ fetching a <> []).

Definition is_file_change (e : Event) : bool :=
  match e with
  | FileChange _ => true
  | _ => false
  end.

(** With no read pending, the button has at most one request in flight,
    and the page is busy exactly while it has one. *)
Definition single_flight (a : App) : Prop :=
  reading a = [] /\
  ((loading (ui a) = false /\ fetching a = []) \/
   (loading (ui a) = true /\ exists r, fetching a = [r])).

(** What holds of the state between operations that do not overlap. *)
Definition at_rest (s : State) : Prop :=
  loading s = false /\
  (pdfFile s = None -> extractedText s = "") /\
  (extractedText s = "" \/ (MAX_LENGTH < Z.of_nat (String.length (extractedText s)))%Z ->
   summary s = JSString "") /\
  (summary s <> JSString "" -> error s = "").

(** More sample inputs: a document whose second page cannot be read, and
    one whose two pages have no text. *)
Definition broken_document : PDFDocumentProxy :=
  {| numPages := 2;
     getPage := fun i =>
       match i with
       | 1 => Normal (sample_page ["Hello"; "world"])
       | _ => Throw
       end |}.

Definition broken_pdfjs : PdfjsLib :=
  {| getDocument := fun _ => Normal broken_document |}.

Definition broken_window : Window := {| pdfjsLib := Some broken_pdfjs |}.

Definition blank_pages : list (list string) := [[]; []].

Definition blank_pdfjs : PdfjsLib :=
  {| getDocument := fun _ => Normal (sample_document blank_pages) |}.

Definition blank_window : Window := {| pdfjsLib := Some blank_pdfjs |}.

Definition textless_response : JSValue :=
  JSObject [("candidates",
             JSArray [JSObject [("content",
                                 JSObject [("parts", JSArray [JSObject [("inlineData", JSString "")]]);
                                           ("role", JSString "model")])]])].

Definition null_candidate_response : JSValue :=
  JSObject [("candidates", JSArray [JSNull])].

(** The page with the small document extracted and nothing pending. *)
Definition extracted_app : App :=
  {| ui := extracted_state; reading := []; fetching := [] |}.

(** Pick the small document, let it be read, click. *)
Definition first_click_events : list Event :=
  [ FileChange (Some small_pdf);
    ReaderLoad 0 sample_window;
    SummarizeClick ].

(** Click, lose the request, click again. *)
Definition retry_events : list Event :=
  [ SummarizeClick;
    FetchSettle 0 FetchRejected;
    SummarizeClick ].

Definition summarize_small_document : list Operation :=
  [ Select sample_window (Some small_pdf);
    Summarize (answering (Responded true (candidate_response "A short summary."))) ].

(** The messages the handlers store on their own account. *)
Definition handler_message (e : string) : Prop :=
  In e [MSG_LIBRARY_MISSING; MSG_EXTRACTION_FAILED; MSG_NOT_A_PDF; MSG_NO_TEXT;
        MSG_TOO_LONG; MSG_NETWORK].

(** A response that arrived among [events]. *)
Definition answered (events : list Event) (result : JSValue) : Prop :=
  exists i ok, In (FetchSettle i (Responded ok result)) events.

(** What the alert can hold after [events]: nothing, a message of the
    handlers, or what the priority order makes of a response that
    arrived. *)
Definition message_after (events : list Event) (e : string) : Prop :=
  e = "" \/
  handler_message e \/
  (exists result, answered events result /\ failure_message result = Normal e).

(** An answer that took the success branch is among [events]. *)
Definition success_among (events : list Event) : Prop :=
  exists i ok result,
    In (FetchSettle i (Responded ok result)) events /\
    is_success ok result = Normal true.


(** A text file is picked while the request for the small document is in
    flight, then the answer arrives. *)
Definition interrupted_success_events : list Event :=
  first_click_events ++
  [ FileChange (Some notes_txt);
    FetchSettle 0 (Responded true (candidate_response "A short summary.")) ].


(** An answer whose text is an object. *)
Definition object_text_response : JSValue :=
  JSObject [("candidates",
             JSArray [JSObject [("content",
                                 JSObject [("parts",
                                            JSArray [JSObject [("text", JSObject [])]])])]])].

(** The request for the small document is answered with an error
    object. *)
Definition api_error_events : list Event :=
  first_click_events ++
  [ FetchSettle 0 (Responded false (api_error_response "API key not valid.")) ].

Definition api_error_app : App :=
  {| ui := {| pdfFile := Some small_pdf;
              extractedText := spec_extracted_text two_pages;
              summary := JSString "";
              loading := false;
              error := "API Error: API key not valid." |};
     reading := [];
     fetching := [] |}.

(** The page once the small document was summarized. *)
Definition summarized_view : View :=
  {| upload_caption := "Selected: small.pdf";
     spinner := None;
     alert := None;
     summarize_button := Some {| disabled := false; caption := "Summarize PDF" |};
     summary_view := SummaryPanel (JSString "A short summary.") |}.

Definition summarize_into_an_object : list Operation :=
  [ Select sample_window (Some small_pdf);
    Summarize (answering (Responded true object_text_response)) ].

(** * Properties *)

(** ** Strings *)

Lemma append_nil_r (s : string) : s ++ "" = s.
Proof.
  induction s as [|c s IH]; simpl; [reflexivity | now rewrite IH].
Qed.

Lemma append_assoc (a b c : string) : (a ++ b) ++ c = a ++ (b ++ c).
Proof.
  induction a as [|x a IH]; simpl; [reflexivity | now rewrite IH].
Qed.

Lemma spec_extracted_text_cons (fragments : list string) (rest : list (list string)) :
  spec_extracted_text (fragments :: rest)
  = (join " " fragments ++ LF) ++ spec_extracted_text rest.
Proof.
  unfold spec_extracted_text. simpl.
  destruct rest as [|next rest]; simpl.
  - now rewrite append_nil_r.
  - reflexivity.
Qed.

(** ** Extraction *)

(** The loop, started at page [S n] with the pages from there on still to
    come, appends their texts to what it has. *)
Lemma extract_pages_appends (pdf : PDFDocumentProxy) :
  forall (rest : list (list string)) (n : nat) (acc : string),
    (forall i fragments,
        nth_error rest i = Some fragments ->
        exists page textContent,
          getPage pdf (S (n + i)) = Normal page /\
          getTextContent page = Normal textContent /\
          map str (items textContent) = fragments) ->
    extract_pages pdf (S n) (List.length rest) acc
    = Normal (acc ++ spec_extracted_text rest).
Proof.
  induction rest as [|fragments rest IH]; intros n acc Hpages.
  - simpl. now rewrite append_nil_r.
  - destruct (Hpages 0 fragments eq_refl) as (page & tc & Hpage & Htc & Hstr).
    rewrite Nat.add_0_r in Hpage.
    cbn [List.length extract_pages]. rewrite Hpage. cbn [cbind]. rewrite Htc. cbn [cbind].
    rewrite Hstr, IH.
    + now rewrite spec_extracted_text_cons, append_assoc.
    + intros i fr Hi. specialize (Hpages (S i) fr Hi).
      now rewrite Nat.add_succ_r in Hpages.
Qed.

(** C1: for a document of N pages, page i contributing the fragment list
    F_i, the stored extracted text is the concatenation, in increasing
    page order, of each F_i joined by single spaces and followed by a line
    break. *)
Theorem extraction_concatenates_pages
    (w : Window) (lib : PdfjsLib) (result : list Byte.byte)
    (pdf : PDFDocumentProxy) (pages : list (list string)) (s : State) :
  pdfjsLib w = Some lib ->
  getDocument lib result = Normal pdf ->
  yields_fragments pdf pages ->
  extractedText (snd (reader_onload w result s)) = spec_extracted_text pages.
Proof.
  intros Hlib Hdoc [Hcount Hpages].
  unfold reader_onload, try_catch, bind, lift. rewrite Hlib, Hdoc, Hcount.
  rewrite (extract_pages_appends pdf pages 0 "").
  - reflexivity.
  - intros i fr Hi. simpl. now apply Hpages.
Qed.

(** Whatever the environment, the reader's callback returns: nothing it
    calls can throw past its [catch]. *)
Lemma reader_onload_returns (w : Window) (result : list Byte.byte) (s : State) :
  fst (reader_onload w result s) = Normal tt.
Proof.
  unfold reader_onload, try_catch, bind, lift.
  destruct (pdfjsLib w) as [lib|]; [|reflexivity].
  destruct (getDocument lib result) as [pdf|]; [|reflexivity].
  destruct (extract_pages pdf 1 (numPages pdf) ""); reflexivity.
Qed.

Lemma reader_onload_not_loading (w : Window) (result : list Byte.byte) (s : State) :
  loading (snd (reader_onload w result s)) = false.
Proof.
  unfold reader_onload, try_catch, bind, lift.
  destruct (pdfjsLib w) as [lib|]; [|reflexivity].
  destruct (getDocument lib result) as [pdf|]; [|reflexivity].
  destruct (extract_pages pdf 1 (numPages pdf) ""); reflexivity.
Qed.

(** C6: selecting a file whose declared media type is not PDF (or no file
    at all) keeps no document handle, leaves extracted text and summary
    empty whatever they were, stores the fixed notice, which is not empty,
    and starts no read. *)
Theorem non_pdf_is_rejected (file : option File) (s : State) :
  (forall f, file = Some f -> type f <> "application/pdf") ->
  let s' := fst (handleFileChange file s) in
  pdfFile s' = None /\
  extractedText s' = "" /\
  summary s' = JSString "" /\
  error s' = MSG_NOT_A_PDF /\
  error s' <> "" /\
  snd (handleFileChange file s) = None /\
  forall w, selectAndExtract w file s = (s', false).
Proof.
  intros Htype. unfold selectAndExtract, handleFileChange.
  destruct file as [f|]; simpl.
  - destruct (String.eqb_spec (type f) "application/pdf") as [E|_].
    + now destruct (Htype f eq_refl).
    + simpl. repeat split; discriminate.
  - repeat split; discriminate.
Qed.

(** C7: selecting a file whose declared media type is PDF keeps the
    handle, clears extracted text, summary and error message and turns the
    busy flag on, and only then hands the file to the reader. *)
Theorem pdf_selection_clears_and_goes_busy (f : File) (s : State) :
  type f = "application/pdf" ->
  let s' := fst (handleFileChange (Some f) s) in
  pdfFile s' = Some f /\
  extractedText s' = "" /\
  summary s' = JSString "" /\
  error s' = "" /\
  loading s' = true /\
  snd (handleFileChange (Some f) s) = Some f /\
  forall w, fst (selectAndExtract w (Some f) s) = snd (reader_onload w (bytes f) s').
Proof.
  intros Htype. unfold selectAndExtract, handleFileChange.
  rewrite Htype. simpl. repeat split.
Qed.

(** C9: when [window.pdfjsLib] is absent the extraction stores the fixed
    configuration message and is no longer busy; the callback returns
    normally, calls nothing and leaves nothing pending to try again. *)
Theorem missing_library_is_reported (w : Window) (result : list Byte.byte) (s : State) :
  pdfjsLib w = None ->
  fst (reader_onload w result s) = Normal tt /\
  error (snd (reader_onload w result s)) = MSG_LIBRARY_MISSING /\
  loading (snd (reader_onload w result s)) = false /\
  extractedText (snd (reader_onload w result s)) = extractedText s /\
  forall f a,
    reading a = [f] ->
    exists a', dispatch (ReaderLoad 0 w) a = Some a' /\ reading a' = [] /\ fetching a' = fetching a.
Proof.
  intros Hlib. unfold reader_onload, try_catch, bind. rewrite Hlib. simpl.
  repeat split.
  intros f a Hreading. unfold dispatch. rewrite Hreading. simpl.
  eexists. split; [reflexivity|]. split; reflexivity.
Qed.

(** ** Summarization: the guards and the cleanup *)

Lemma summarizeText_begin_cases (s : State) :
  (extractedText s = "" /\
   summarizeText_begin s = (snd (setError MSG_NO_TEXT s), None)) \/
  (extractedText s <> "" /\
   (MAX_LENGTH < Z.of_nat (String.length (extractedText s)))%Z /\
   summarizeText_begin s = (snd (setError MSG_TOO_LONG s), None)) \/
  (extractedText s <> "" /\
   (Z.of_nat (String.length (extractedText s)) <= MAX_LENGTH)%Z /\
   summarizeText_begin s
   = (snd ((setLoading true ;; setSummary (JSString "") ;; setError "")%handler s),
      Some (request_for (extractedText s)))).
Proof.
  unfold summarizeText_begin.
  destruct (String.eqb_spec (extractedText s) "") as [E|E]; [now left|].
  destruct (Z.ltb_spec MAX_LENGTH (Z.of_nat (String.length (extractedText s)))) as [L|L].
  - right; left. auto.
  - right; right. auto.
Qed.

Lemma summarizeText_resume_not_loading (o : FetchOutcome) (s : State) :
  loading (snd (summarizeText_resume o s)) = false.
Proof.
  unfold summarizeText_resume, try_finally.
  destruct (try_catch _ _ s) as [c s']. reflexivity.
Qed.

(** The continuation returns: what the [try] throws, the [catch] takes. *)
Lemma summarizeText_resume_returns (o : FetchOutcome) (s : State) :
  fst (summarizeText_resume o s) = Normal tt.
Proof.
  unfold summarizeText_resume, try_finally, try_catch.
  destruct o as [|ok|ok result]; try reflexivity.
  destruct (inspect_response ok result s) as [[[]|] s']; reflexivity.
Qed.

(** C2: every event that concludes an extraction or a summarization
    attempt, whatever its outcome, leaves the busy flag off. *)
Theorem attempts_conclude_not_busy (e : Event) (a a' : App) :
  dispatch e a = Some a' ->
  concludes_attempt e a = true ->
  loading (ui a') = false.
Proof.
  destruct e as [file|i w| |i o]; simpl; intros Hstep Hend.
  - discriminate.
  - destruct (nth_error (reading a) i); [|discriminate].
    injection Hstep as <-. apply reader_onload_not_loading.
  - destruct (summarize_button_enabled (ui a)) eqn:Henabled; [|discriminate].
    apply andb_prop in Henabled as [_ Hidle]. apply negb_true_iff in Hidle.
    destruct (summarizeText_begin_cases (ui a)) as [[_ E]|[(_ & _ & E)|(_ & _ & E)]];
      rewrite E in Hstep, Hend; simpl in *; try discriminate;
      injection Hstep as <-; exact Hidle.
  - destruct (nth_error (fetching a) i); [|discriminate].
    injection Hstep as <-. apply summarizeText_resume_not_loading.
Qed.

(** C3: with an empty extracted text, or one longer than the maximum,
    summarizing sends no request and only stores the fixed message of the
    guard that stopped it. *)
Theorem guards_stop_before_the_network (fetch : FetchRequest -> FetchOutcome) (s : State) :
  (extractedText s = "" ->
   snd (summarizeText fetch s) = [] /\
   fst (summarizeText fetch s) = snd (setError MSG_NO_TEXT s) /\
   error (fst (summarizeText fetch s)) = MSG_NO_TEXT) /\
  ((MAX_LENGTH < Z.of_nat (String.length (extractedText s)))%Z ->
   snd (summarizeText fetch s) = [] /\
   fst (summarizeText fetch s) = snd (setError MSG_TOO_LONG s) /\
   error (fst (summarizeText fetch s)) = MSG_TOO_LONG).
Proof.
  unfold summarizeText.
  destruct (summarizeText_begin_cases s) as [[E B]|[(E & L & B)|(E & L & B)]];
    rewrite B; split; intros H; simpl; auto.
  - rewrite E in H. simpl in H. discriminate.
  - contradiction.
  - contradiction.
  - lia.
Qed.

(** C10: the maximum is 50,000 and the guard is strict: a text of exactly
    50,000 characters goes out in a request, and a non-empty text is turned
    away as too large exactly when it is longer than that. *)
Theorem maximum_length_is_strict (fetch : FetchRequest -> FetchOutcome) (s : State) :
  MAX_LENGTH = 50000%Z /\
  (Z.of_nat (String.length (extractedText s)) = 50000%Z ->
   snd (summarizeText fetch s) = [request_for (extractedText s)]) /\
  (extractedText s <> "" ->
   (snd (summarizeText fetch s) = [] /\ error (fst (summarizeText fetch s)) = MSG_TOO_LONG)
   <-> (50000 < Z.of_nat (String.length (extractedText s)))%Z).
Proof.
  split; [reflexivity|]. unfold summarizeText.
  destruct (summarizeText_begin_cases s) as [[E B]|[(E & L & B)|(E & L & B)]];
    rewrite B; unfold MAX_LENGTH in *; simpl.
  - split.
    + rewrite E. simpl. discriminate.
    + intros H. contradiction.
  - split; [lia|]. intros _. split; [intros _; exact L | auto].
  - split; [reflexivity|]. intros _. split; [intros [H _]; discriminate | lia].
Qed.

(** ** Reading a decoded response *)

Lemma number_of_nat_positive (n : nat) :
  SFltb number_zero (number_of_nat (S n)) = true.
Proof.
  unfold number_of_nat. destruct (shl_align _ _ _) as [m e]. reflexivity.
Qed.

Lemma number_of_nat_is_zero (n : nat) :
  SFeqb (number_of_nat n) number_zero = Nat.eqb n 0.
Proof.
  destruct n as [|n]; [reflexivity|].
  unfold number_of_nat. destruct (shl_align _ _ _) as [m e]. reflexivity.
Qed.

Lemma index_of_key_zero (len : nat) : index_of_key "0" (S len) = Some 0.
Proof. reflexivity. Qed.

Ltac named_key_tac :=
  split; [reflexivity | intros i; unfold string_of_nat; destruct (Nat.to_uint i); reflexivity].

Lemma named_error : named_key "error".
Proof. named_key_tac. Qed.

Lemma named_message : named_key "message".
Proof. named_key_tac. Qed.

Lemma named_promptFeedback : named_key "promptFeedback".
Proof. named_key_tac. Qed.

Lemma named_blockReason : named_key "blockReason".
Proof. named_key_tac. Qed.

Lemma named_candidates : named_key "candidates".
Proof. named_key_tac. Qed.

Lemma named_content : named_key "content".
Proof. named_key_tac. Qed.

Lemma named_parts : named_key "parts".
Proof. named_key_tac. Qed.

Lemma named_text : named_key "text".
Proof. named_key_tac. Qed.

Create HintDb named.

#[local] Hint Resolve named_error named_message named_promptFeedback named_blockReason
  named_candidates named_content named_parts named_text : named.

Lemma index_of_named_key (k : string) (len : nat) :
  named_key k -> index_of_key k len = None.
Proof.
  intros [_ Hk]. unfold index_of_key.
  generalize 0 as start. induction len as [|len IH]; intros start; simpl.
  - reflexivity.
  - rewrite Hk. apply IH.
Qed.

(** Under a named key, reading a value that is not [null] or [undefined]
    gives its field. *)
Lemma Get_named (v : JSValue) (k : string) :
  named_key k -> nullish v = false -> Get v k = Normal (member k v).
Proof.
  intros Hk Hv. pose proof (proj1 Hk) as Hlen.
  destruct v; simpl in *; try discriminate; try reflexivity;
    rewrite Hlen, (index_of_named_key _ _ Hk); reflexivity.
Qed.

Lemma truthy_not_nullish (v : JSValue) : ToBoolean v = true -> nullish v = false.
Proof. destruct v; simpl; congruence. Qed.

Lemma member_of_falsy (k : string) (v : JSValue) :
  ToBoolean v = false -> member k v = JSUndefined.
Proof. destruct v; simpl; congruence. Qed.

(** [r.k1 && r.k1.k2] is the truthiness of the nested field. *)
Lemma probe_nested (r : JSValue) (k1 k2 : string) :
  named_key k1 -> named_key k2 -> nullish r = false ->
  and_also (truthy_at r [k1]) (truthy_at r [k1; k2])
  = Normal (ToBoolean (member k2 (member k1 r))).
Proof.
  intros H1 H2 Hr. unfold and_also, truthy_at. simpl.
  rewrite (Get_named r k1 H1 Hr). simpl.
  destruct (ToBoolean (member k1 r)) eqn:Hb.
  - rewrite (Get_named _ k2 H2 (truthy_not_nullish _ Hb)). reflexivity.
  - now rewrite (member_of_falsy k2 _ Hb).
Qed.

Lemma get_nested (r : JSValue) (k1 k2 : string) :
  named_key k1 -> named_key k2 -> nullish r = false ->
  ToBoolean (member k2 (member k1 r)) = true ->
  get_path r [k1; k2] = Normal (member k2 (member k1 r)).
Proof.
  intros H1 H2 Hr Hb. simpl. rewrite (Get_named r k1 H1 Hr). simpl.
  destruct (nullish (member k1 r)) eqn:Hn.
  - destruct (member k1 r); simpl in *; try discriminate.
  - now rewrite (Get_named _ k2 H2 Hn).
Qed.

(** [r.candidates && r.candidates.length === 0]. *)
Lemma probe_no_candidates (r : JSValue) :
  nullish r = false ->
  and_also (truthy_at r ["candidates"])
           (len <- get_path r ["candidates"; "length"] ;;
            Normal (strictly_equals_zero len))%comp
  = Normal (no_candidates r).
Proof.
  intros Hr. unfold and_also, truthy_at, no_candidates. simpl.
  rewrite (Get_named r "candidates" named_candidates Hr). simpl.
  destruct (member "candidates" r) as [| |b|n|t|elems|props]; simpl; try reflexivity.
  - destruct b; reflexivity.
  - destruct (match SFcompare n number_zero with Some Eq | None => false | Some _ => true end);
      reflexivity.
  - destruct t as [|c t]; simpl; [reflexivity|].
    exact (f_equal Normal (number_of_nat_is_zero (S (String.length t)))).
  - rewrite number_of_nat_is_zero. destruct elems; reflexivity.
Qed.

Lemma get_path_named (v : JSValue) (k : string) (rest : list string) :
  named_key k -> nullish v = false ->
  get_path v (k :: rest) = get_path (member k v) rest.
Proof.
  intros Hk Hv. simpl. now rewrite (Get_named v k Hk Hv).
Qed.

Lemma get_path_first (elems : list JSValue) (x : JSValue) (rest : list string) :
  get_path (JSArray (x :: elems)) ("0" :: rest) = get_path x rest.
Proof. reflexivity. Qed.

Lemma get_path_length (elems : list JSValue) :
  get_path (JSArray elems) ["length"] = Normal (JSNumber (number_of_nat (List.length elems))).
Proof. reflexivity. Qed.

Lemma JSValue_eq_empty (v : JSValue) : v = JSString "" \/ v <> JSString "".
Proof.
  destruct v as [| | | |t| |]; try (right; discriminate).
  destruct (String.eqb_spec t "") as [->|H]; [now left|].
  right. intros E. now injection E.
Qed.

(** Only an object has a field that is there. *)
Lemma member_is_of_object (k : string) (v : JSValue) :
  member k v <> JSUndefined -> exists props, v = JSObject props.
Proof.
  destruct v; simpl; intros H; try congruence. now eexists.
Qed.

(** The [else] branch stores the message the priority order picks, and
    throws where the order has no message to pick. *)
Lemma report_failure_refines (result : JSValue) (s : State) :
  report_failure result s
  = match failure_message result with
    | Normal m => setError m s
    | Throw => (Throw, s)
    end.
Proof.
  destruct (nullish result) eqn:Hr.
  - destruct result; try discriminate; reflexivity.
  - assert (Hf : failure_message result
                 = let m := member "message" (member "error" result) in
                   let r := member "blockReason" (member "promptFeedback" result) in
                   if ToBoolean m then (t <- ToString m ;; Normal (api_error_message t))%comp
                   else if ToBoolean r then (t <- ToString r ;; Normal (blocked_message t))%comp
                   else if no_candidates result then Normal MSG_NO_CANDIDATES
                   else Normal MSG_UNEXPECTED)
      by (destruct result; try discriminate; reflexivity).
    rewrite Hf. clear Hf. cbv zeta.
    unfold report_failure, bind, lift.
    rewrite (probe_nested result "error" "message" named_error named_message Hr).
    destruct (ToBoolean (member "message" (member "error" result))) eqn:Hm.
    + rewrite (get_nested result "error" "message" named_error named_message Hr Hm).
      cbn [cbind]. destruct (ToString _); reflexivity.
    + rewrite (probe_nested result "promptFeedback" "blockReason"
                 named_promptFeedback named_blockReason Hr).
      destruct (ToBoolean (member "blockReason" (member "promptFeedback" result))) eqn:Hb.
      * rewrite (get_nested result "promptFeedback" "blockReason"
                   named_promptFeedback named_blockReason Hr Hb).
        cbn [cbind]. destruct (ToString _); reflexivity.
      * rewrite (probe_no_candidates result Hr).
        destruct (no_candidates result); reflexivity.
Qed.

Lemma report_failure_keeps_summary (result : JSValue) (s : State) :
  summary (snd (report_failure result s)) = summary s.
Proof.
  rewrite report_failure_refines. destruct (failure_message result); reflexivity.
Qed.

(** What the continuation leaves in the state, by the way the inspection
    of the response went. *)
Lemma summarizeText_resume_responded (ok : bool) (result : JSValue) (s : State) :
  let s' := snd (summarizeText_resume (Responded ok result) s) in
  match is_success ok result with
  | Normal true =>
      match get_path result ["candidates"; "0"; "content"; "parts"; "0"; "text"] with
      | Normal text => summary s' = text /\ error s' = error s
      | Throw => summary s' = summary s /\ error s' = MSG_NETWORK
      end
  | Normal false =>
      summary s' = summary s /\
      error s' = match failure_message result with
                 | Normal m => m
                 | Throw => MSG_NETWORK
                 end
  | Throw => summary s' = summary s /\ error s' = MSG_NETWORK
  end.
Proof.
  unfold summarizeText_resume, try_finally, try_catch, inspect_response, bind, lift.
  destruct (is_success ok result) as [[|]|].
  - destruct (get_path result _); simpl; auto.
  - rewrite report_failure_refines.
    destruct (failure_message result); simpl; auto.
  - simpl; auto.
Qed.


(** A non-empty candidate list whose first entry has a non-empty part list
    passes the test, and the text read is the first part's. *)
Lemma is_success_on_first_candidate
    (result c p : JSValue) (cs ps : list JSValue) :
  member "candidates" result = JSArray (c :: cs) ->
  member "parts" (member "content" c) = JSArray (p :: ps) ->
  is_success true result = Normal true /\
  get_path result ["candidates"; "0"; "content"; "parts"; "0"; "text"] = Get p "text".
Proof.
  intros Hc Hp.
  destruct (member_is_of_object "candidates" result) as [props ->]; [congruence|].
  destruct (member_is_of_object "parts" (member "content" c)) as [cprops Hcontent];
    [congruence|].
  destruct (member_is_of_object "content" c) as [cfields Ec]; [congruence|].
  rewrite Hcontent in Hp.
  assert (P1 : forall rest, get_path (JSObject props) ("candidates" :: rest)
                            = get_path (JSArray (c :: cs)) rest).
  { intros rest. rewrite get_path_named by auto with named. now rewrite Hc. }
  assert (P2 : forall rest, get_path c ("content" :: rest)
                            = get_path (JSObject cprops) rest).
  { intros rest. rewrite get_path_named by (subst c; auto with named).
    now rewrite Hcontent. }
  assert (P3 : forall rest, get_path (JSObject cprops) ("parts" :: rest)
                            = get_path (JSArray (p :: ps)) rest).
  { intros rest. rewrite get_path_named by auto with named. now rewrite Hp. }
  split.
  - unfold is_success, and_also, truthy_at, greater_than_zero.
    repeat first [rewrite P1 | rewrite P2 | rewrite P3 | rewrite get_path_first
                 | rewrite get_path_length].
    cbn [get_path cbind ToBoolean ToNumber List.length].
    rewrite !number_of_nat_positive. reflexivity.
  - rewrite P1, get_path_first, P2, P3, get_path_first. simpl.
    destruct (Get p "text"); reflexivity.
Qed.

(** An attempt that gets past the guards starts from a cleared result. *)
Lemma summarizeText_begin_sends (s : State) (req : FetchRequest) :
  snd (summarizeText_begin s) = Some req ->
  req = request_for (extractedText s) /\
  summary (fst (summarizeText_begin s)) = JSString "" /\
  error (fst (summarizeText_begin s)) = "" /\
  loading (fst (summarizeText_begin s)) = true /\
  extractedText (fst (summarizeText_begin s)) = extractedText s.
Proof.
  destruct (summarizeText_begin_cases s) as [[_ B]|[(_ & _ & B)|(_ & _ & B)]];
    rewrite B; simpl; intros H; try discriminate.
  injection H as <-. repeat split.
Qed.

Lemma summarizeText_sent (fetch : FetchRequest -> FetchOutcome) (s : State) (req : FetchRequest) :
  snd (summarizeText_begin s) = Some req ->
  summarizeText fetch s
  = (snd (summarizeText_resume (fetch req) (fst (summarizeText_begin s))), [req]).
Proof.
  unfold summarizeText. destruct (summarizeText_begin s) as [s1 [r|]]; simpl; intros H.
  - now injection H as ->.
  - discriminate.
Qed.




(** * Further properties of the controller *)

(** ** Extraction: failure, empty documents, late results *)

Lemma append_is_nil (a b : string) : a ++ b = "" -> a = "" /\ b = "".
Proof.
  destruct a; simpl; [auto | discriminate].
Qed.

Lemma spec_extracted_text_is_nil (pages : list (list string)) :
  spec_extracted_text pages = "" <-> pages = [].
Proof.
  split.
  - destruct pages as [|fragments rest]; [reflexivity|].
    rewrite spec_extracted_text_cons. intros H.
    apply append_is_nil in H as [H _]. apply append_is_nil in H as [_ H]. discriminate.
  - intros ->. reflexivity.
Qed.

(** A document that is read to the end: the callback stores its text and
    turns the busy flag off, and touches nothing else. *)
Lemma reader_onload_stores
    (w : Window) (lib : PdfjsLib) (result : list Byte.byte)
    (pdf : PDFDocumentProxy) (pages : list (list string)) (s : State) :
  pdfjsLib w = Some lib ->
  getDocument lib result = Normal pdf ->
  yields_fragments pdf pages ->
  snd (reader_onload w result s)
  = {| pdfFile := pdfFile s; extractedText := spec_extracted_text pages;
       summary := summary s; loading := false; error := error s |}.
Proof.
  intros Hlib Hdoc [Hcount Hpages].
  unfold reader_onload, try_catch, bind, lift. rewrite Hlib, Hdoc, Hcount.
  rewrite (extract_pages_appends pdf pages 0 "").
  - reflexivity.
  - intros i fr Hi. simpl. now apply Hpages.
Qed.

(** The loop stops at the first page that cannot be read, whatever it has
    gathered. *)
Lemma extract_pages_fails (pdf : PDFDocumentProxy) (j : nat) :
  page_fails pdf j = true ->
  forall (remaining i : nat) (acc : string),
    i <= j < i + remaining ->
    extract_pages pdf i remaining acc = Throw.
Proof.
  intros Hj. induction remaining as [|k IH]; intros i acc Hrange; [lia|].
  cbn [extract_pages]. unfold page_fails in Hj.
  destruct (Nat.eq_dec i j) as [->|Hne].
  - destruct (getPage pdf j) as [page|]; [|reflexivity]. cbn [cbind].
    destruct (getTextContent page); [discriminate|reflexivity].
  - destruct (getPage pdf i) as [page|]; [|reflexivity]. cbn [cbind].
    destruct (getTextContent page); [|reflexivity]. cbn [cbind].
    apply IH. lia.
Qed.

(** X1: when the document cannot be loaded, or one of its pages cannot be
    read, the extraction stores the fixed failure message and turns the
    busy flag off; the text gathered from the pages before is dropped, and
    extracted text, summary and handle stay as they were. *)
Theorem failed_extraction_drops_partial_text
    (w : Window) (lib : PdfjsLib) (result : list Byte.byte) (s : State) :
  pdfjsLib w = Some lib ->
  (getDocument lib result = Throw \/
   exists pdf j,
     getDocument lib result = Normal pdf /\
     1 <= j <= numPages pdf /\
     page_fails pdf j = true) ->
  snd (reader_onload w result s)
  = {| pdfFile := pdfFile s; extractedText := extractedText s; summary := summary s;
       loading := false; error := MSG_EXTRACTION_FAILED |}.
Proof.
  intros Hlib Hfail. unfold reader_onload, try_catch, bind, lift. rewrite Hlib.
  destruct Hfail as [Hdoc|(pdf & j & Hdoc & Hj & Hpage)]; rewrite Hdoc.
  - reflexivity.
  - rewrite (extract_pages_fails pdf j Hpage (numPages pdf) 1 "") by lia. reflexivity.
Qed.

Lemma blank_pages_text (pages : list (list string)) :
  (forall fragments, In fragments pages -> fragments = []) ->
  spec_extracted_text pages = repeat_string LF (List.length pages).
Proof.
  induction pages as [|fragments rest IH]; intros Hblank; [reflexivity|].
  rewrite spec_extracted_text_cons, (Hblank fragments (or_introl eq_refl)), IH.
  - reflexivity.
  - intros fr Hin. apply Hblank. now right.
Qed.

(** X2: the extracted text is empty exactly when the document has no
    page.  A page without any text still contributes its line break, so a
    document of blank pages yields as many line breaks as it has pages;
    with at least one page the condition under which the summarize button
    is there and enabled holds, and the page, where it renders (the
    stored summary is something React can show), shows that button. *)
Theorem text_is_empty_only_without_pages
    (w : Window) (lib : PdfjsLib) (result : list Byte.byte)
    (pdf : PDFDocumentProxy) (pages : list (list string)) (s : State) :
  pdfjsLib w = Some lib ->
  getDocument lib result = Normal pdf ->
  yields_fragments pdf pages ->
  (extractedText (snd (reader_onload w result s)) = "" <-> pages = []) /\
  (pages <> [] ->
   summarize_button_enabled (snd (reader_onload w result s)) = true /\
   (displayable (summary s) = true ->
    exists v,
      render (snd (reader_onload w result s)) = Normal v /\
      summarize_button v = Some {| disabled := false; caption := "Summarize PDF" |})) /\
  ((forall fragments, In fragments pages -> fragments = []) ->
   extractedText (snd (reader_onload w result s)) = repeat_string LF (List.length pages)).
Proof.
  intros Hlib Hdoc Hyields.
  rewrite (reader_onload_stores w lib result pdf pages s Hlib Hdoc Hyields).
  cbn [extractedText].
  split; [apply spec_extracted_text_is_nil|]. split; [|apply blank_pages_text].
  intros Hpages.
  assert (Hne : String.eqb (spec_extracted_text pages) "" = false).
  { destruct (String.eqb_spec (spec_extracted_text pages) "") as [E|_]; [|reflexivity].
    now apply spec_extracted_text_is_nil in E. }
  split.
  - unfold summarize_button_enabled, summarize_button_shown. cbn [extractedText loading].
    now rewrite Hne.
  - intros Hshow. unfold render. cbn [summary extractedText loading].
    rewrite Hshow, andb_false_r, Hne. eexists. split; reflexivity.
Qed.

Lemma nth_error_app_nil {A} (l : list A) (i : nat) :
  nth_error (l ++ []) i = nth_error l i.
Proof. now rewrite app_nil_r. Qed.

(** X3: a read that was started is not called off by a later selection
    that is rejected: when its callback runs, the text of the superseded
    file is stored beside the rejection's message, with no file
    selected. *)
Theorem superseded_extraction_is_stored
    (a : App) (i : nat) (f : File) (other : option File)
    (w : Window) (lib : PdfjsLib) (pdf : PDFDocumentProxy) (pages : list (list string)) :
  nth_error (reading a) i = Some f ->
  (forall g, other = Some g -> type g <> "application/pdf") ->
  pdfjsLib w = Some lib ->
  getDocument lib (bytes f) = Normal pdf ->
  yields_fragments pdf pages ->
  exists a',
    run [FileChange other; ReaderLoad i w] a = Some a' /\
    ui a'
    = {| pdfFile := None; extractedText := spec_extracted_text pages;
         summary := JSString ""; loading := false; error := MSG_NOT_A_PDF |}.
Proof.
  intros Hread Hother Hlib Hdoc Hyields.
  assert (Hreject : handleFileChange other (ui a)
                    = ({| pdfFile := None; extractedText := ""; summary := JSString "";
                          loading := loading (ui a); error := MSG_NOT_A_PDF |}, None)).
  { unfold handleFileChange. destruct other as [g|]; [|reflexivity].
    destruct (String.eqb_spec (type g) "application/pdf") as [E|_]; [|reflexivity].
    now destruct (Hother g eq_refl). }
  cbn [run dispatch]. rewrite Hreject. cbn [pending reading ui fetching].
  rewrite nth_error_app_nil, Hread.
  eexists. split; [reflexivity|]. cbn [ui].
  now rewrite (reader_onload_stores w lib (bytes f) pdf pages _ Hlib Hdoc Hyields).
Qed.

(** ** The page: what is pending, and when it is busy *)

Lemma handleFileChange_cases (file : option File) (s : State) :
  (exists f,
      file = Some f /\ is_pdf f /\
      handleFileChange file s
      = ({| pdfFile := Some f; extractedText := ""; summary := JSString "";
            loading := true; error := "" |}, Some f)) \/
  ((forall f, file = Some f -> ~ is_pdf f) /\
   handleFileChange file s
   = ({| pdfFile := None; extractedText := ""; summary := JSString "";
         loading := loading s; error := MSG_NOT_A_PDF |}, None)).
Proof.
  unfold handleFileChange, is_pdf. destruct file as [f|].
  - destruct (String.eqb_spec (type f) "application/pdf") as [E|E].
    + left. exists f. auto.
    + right. split; [|reflexivity]. intros g Hg. now injection Hg as <-.
  - right. split; [|reflexivity]. discriminate.
Qed.

Lemma reader_onload_keeps (w : Window) (result : list Byte.byte) (s : State) :
  pdfFile (snd (reader_onload w result s)) = pdfFile s /\
  summary (snd (reader_onload w result s)) = summary s.
Proof.
  unfold reader_onload, try_catch, bind, lift.
  destruct (pdfjsLib w) as [lib|]; [|split; reflexivity].
  destruct (getDocument lib result) as [pdf|]; [|split; reflexivity].
  destruct (extract_pages pdf 1 (numPages pdf) ""); split; reflexivity.
Qed.

(** The continuation changes neither the document handle nor the
    extracted text. *)
Lemma summarizeText_resume_keeps (o : FetchOutcome) (s : State) :
  pdfFile (snd (summarizeText_resume o s)) = pdfFile s /\
  extractedText (snd (summarizeText_resume o s)) = extractedText s.
Proof.
  unfold summarizeText_resume, try_finally, try_catch.
  destruct o as [|ok|ok result]; try (split; reflexivity).
  unfold inspect_response, bind, lift.
  destruct (is_success ok result) as [[|]|].
  - destruct (get_path result _); split; reflexivity.
  - rewrite report_failure_refines.
    destruct (failure_message result); split; reflexivity.
  - split; reflexivity.
Qed.

Lemma Forall_remove_nth {A} (P : A -> Prop) (l : list A) :
  Forall P l -> forall i, Forall P (remove_nth i l).
Proof.
  induction 1 as [|x l Hx Hl IH]; intros [|i]; simpl; auto.
Qed.

Lemma dispatch_keeps_invariant (e : Event) (a a' : App) :
  page_invariant a -> dispatch e a = Some a' -> page_invariant a'.
Proof.
  intros (Hread & Hfetch & Hfile & Hbusy) Hstep.
  destruct e as [file|i w| |i o]; simpl in Hstep.
  - destruct (handleFileChange_cases file (ui a)) as [(f & _ & Hpdf & E)|(_ & E)];
      rewrite E in Hstep; injection Hstep as <-; unfold page_invariant; simpl.
    + repeat split; auto.
      * apply Forall_app. split; [assumption | now constructor].
      * intros g Hg. now injection Hg as <-.
      * intros _. left. now destruct (reading a).
    + rewrite app_nil_r. repeat split; auto. discriminate.
  - destruct (nth_error (reading a) i) as [f|]; [|discriminate].
    injection Hstep as <-. unfold page_invariant; simpl.
    rewrite (proj1 (reader_onload_keeps w (bytes f) (ui a))), reader_onload_not_loading.
    repeat split; auto using Forall_remove_nth. discriminate.
  - destruct (summarize_button_enabled (ui a)); [|discriminate].
    destruct (summarizeText_begin_cases (ui a)) as [[_ E]|[(_ & _ & E)|(Htext & Hlen & E)]];
      rewrite E in Hstep; injection Hstep as <-; unfold page_invariant; simpl;
      rewrite ?app_nil_r; repeat split; auto.
    + apply Forall_app. split; [assumption|]. constructor; [|constructor].
      now exists (extractedText (ui a)).
    + intros _. right. now destruct (fetching a).
  - destruct (nth_error (fetching a) i) as [r|]; [|discriminate].
    injection Hstep as <-. unfold page_invariant; simpl.
    rewrite (proj1 (summarizeText_resume_keeps o (ui a))), summarizeText_resume_not_loading.
    repeat split; auto using Forall_remove_nth. discriminate.
Qed.

Lemma run_keeps_invariant (events : list Event) :
  forall a a', page_invariant a -> run events a = Some a' -> page_invariant a'.
Proof.
  induction events as [|e rest IH]; intros a a' Hinv Hrun; simpl in Hrun.
  - now injection Hrun as <-.
  - destruct (dispatch e a) as [a1|] eqn:Hstep; [|discriminate].
    exact (IH a1 a' (dispatch_keeps_invariant e a a1 Hinv Hstep) Hrun).
Qed.

Lemma initial_app_invariant : page_invariant initial_app.
Proof.
  unfold page_invariant; simpl. repeat split; try constructor; discriminate.
Qed.

(** X4: on every page reached from the initial one, every read that is
    pending is of a file declared as PDF, every request that is pending
    carries a non-empty text of at most 50,000 characters behind the fixed
    instruction, and the stored handle, if any, is of a PDF. *)
Theorem pending_work_passed_the_checks (events : list Event) (a : App) :
  run events initial_app = Some a ->
  Forall is_pdf (reading a) /\
  Forall guarded_request (fetching a) /\
  (forall f, pdfFile (ui a) = Some f -> is_pdf f).
Proof.
  intros Hrun.
  destruct (run_keeps_invariant events initial_app a initial_app_invariant Hrun)
    as (H1 & H2 & H3 & _).
  auto.
Qed.

(** X5: on every page reached from the initial one, the busy flag is on
    only while a read or a request is pending. *)
Theorem busy_only_while_pending (events : list Event) (a : App) :
  run events initial_app = Some a ->
  loading (ui a) = true ->
  reading a <> [] \/ fetching a <> [].
Proof.
  intros Hrun.
  now destruct (run_keeps_invariant events initial_app a initial_app_invariant Hrun)
    as (_ & _ & _ & H).
Qed.

Lemma dispatch_keeps_single_flight (e : Event) (a a' : App) :
  is_file_change e = false ->
  single_flight a -> dispatch e a = Some a' -> single_flight a'.
Proof.
  intros He [Hread Hflight] Hstep.
  destruct e as [file|i w| |i o]; simpl in Hstep; try discriminate.
  - rewrite Hread in Hstep. destruct i; discriminate.
  - destruct (summarize_button_enabled (ui a)) eqn:Hen; [|discriminate].
    apply andb_prop in Hen as [_ Hidle]. apply negb_true_iff in Hidle.
    destruct Hflight as [[_ Hnone]|[Hbusy _]]; [|congruence].
    destruct (summarizeText_begin_cases (ui a)) as [[_ E]|[(_ & _ & E)|(_ & _ & E)]];
      rewrite E in Hstep; injection Hstep as <-; unfold single_flight; simpl;
      rewrite Hnone; (split; [assumption|]).
    + left. auto.
    + left. auto.
    + right. split; [reflexivity|]. now eexists.
  - destruct (nth_error (fetching a) i) as [r|] eqn:Hnth; [|discriminate].
    injection Hstep as <-. unfold single_flight; simpl.
    split; [assumption|]. left. split; [apply summarizeText_resume_not_loading|].
    destruct Hflight as [[_ Hnone]|[_ [r0 Hone]]].
    + rewrite Hnone in Hnth. destruct i; discriminate.
    + rewrite Hone in *. destruct i as [|i]; [reflexivity|]. destruct i; discriminate.
Qed.

(** X6: as long as no other file is picked, the button keeps at most one
    request in flight, and the page is busy exactly while one is: from a
    page with nothing pending, clicks and answers in any order lead only
    to pages with no request and the busy flag off, or one request and
    the busy flag on. *)
Theorem button_keeps_one_request_in_flight (events : list Event) :
  forall a a',
    reading a = [] -> fetching a = [] -> loading (ui a) = false ->
    forallb (fun e => negb (is_file_change e)) events = true ->
    run events a = Some a' ->
    List.length (fetching a') <= 1 /\
    (loading (ui a') = true <-> fetching a' <> []).
Proof.
  assert (Hrun : forall a a',
             forallb (fun e => negb (is_file_change e)) events = true ->
             single_flight a -> run events a = Some a' -> single_flight a').
  { induction events as [|e rest IH]; intros a a' Hev Hinv Hrun; simpl in Hrun.
    - now injection Hrun as <-.
    - simpl in Hev. apply andb_prop in Hev as [He Hrest]. apply negb_true_iff in He.
      destruct (dispatch e a) as [a1|] eqn:Hstep; [|discriminate].
      exact (IH a1 a' Hrest (dispatch_keeps_single_flight e a a1 He Hinv Hstep) Hrun). }
  intros a a' Hread Hfetch Hidle Hev Hr.
  destruct (Hrun a a' Hev (conj Hread (or_introl (conj Hidle Hfetch))) Hr)
    as [_ [[Hl Hf]|[Hl [r Hf]]]]; rewrite Hl, Hf; simpl.
  - split; [lia|]. split; [discriminate | congruence].
  - split; [lia|]. split; [discriminate | reflexivity].
Qed.

(** ** The request and the reading of its answer *)

Lemma append_cancel_l (p a b : string) : p ++ a = p ++ b -> a = b.
Proof.
  induction p as [|c p IH]; simpl; intros H; [exact H|].
  injection H as H. now apply IH.
Qed.

Lemma substring_all (t : string) : substring 0 (String.length t) t = t.
Proof.
  induction t as [|c t IH]; simpl; [reflexivity | now rewrite IH].
Qed.

Lemma substring_after (p t : string) :
  substring (String.length p) (String.length t) (p ++ t) = t.
Proof.
  induction p as [|c p IH]; simpl; [apply substring_all | exact IH].
Qed.

(** X7: the request carries the extracted text whole: the text field of
    its only part is the fixed instruction followed by the text, the text
    is read back from behind the instruction, and two texts that differ
    give two requests that differ. *)
Theorem request_carries_the_text (text : string) :
  get_path (payload (request_for text)) ["contents"; "0"; "parts"; "0"; "text"]
  = Normal (JSString (prompt_for text)) /\
  substring (String.length (prompt_for "")) (String.length text) (prompt_for text) = text /\
  forall text', request_for text = request_for text' -> text = text'.
Proof.
  split; [reflexivity|].
  assert (Hback : forall t,
             substring (String.length (prompt_for "")) (String.length t) (prompt_for t) = t).
  { intros t. exact (substring_after (prompt_for "") t). }
  split; [apply Hback|].
  intros text' Heq.
  pose proof (f_equal (fun r => match get_path (payload r)
                                        ["contents"; "0"; "parts"; "0"; "text"] with
                                | Normal (JSString x) => x
                                | _ => ""
                                end) Heq) as Hprompt.
  change (prompt_for "" ++ text = prompt_for "" ++ text') in Hprompt.
  exact (append_cancel_l (prompt_for "") text text' Hprompt).
Qed.

Lemma is_success_needs_ok (ok : bool) (result : JSValue) :
  is_success ok result = Normal true -> ok = true.
Proof.
  destruct ok; [reflexivity | discriminate].
Qed.

Lemma failure_message_is_not_empty (result : JSValue) (m : string) :
  failure_message result = Normal m -> m <> "".
Proof.
  unfold failure_message.
  destruct result; try discriminate;
    repeat match goal with
           | |- context [if ?b then _ else _] => destruct b
           | |- context [ToString ?v] => destruct (ToString v)
           end;
    simpl; intros H; try discriminate; injection H as <-; discriminate.
Qed.

(** The first candidate or the first part is [null]: the reading of the
    response throws. *)
Lemma is_success_on_null_candidate (result c : JSValue) (cs : list JSValue) :
  member "candidates" result = JSArray (c :: cs) ->
  nullish c = true ->
  is_success true result = Throw.
Proof.
  intros Hc Hnull.
  destruct (member_is_of_object "candidates" result) as [props ->]; [congruence|].
  assert (P1 : forall rest, get_path (JSObject props) ("candidates" :: rest)
                            = get_path (JSArray (c :: cs)) rest).
  { intros rest. rewrite get_path_named by auto with named. now rewrite Hc. }
  unfold is_success, and_also, truthy_at, greater_than_zero.
  rewrite !P1, get_path_first, get_path_length.
  cbn [get_path cbind ToBoolean ToNumber List.length].
  rewrite number_of_nat_positive.
  destruct c; try discriminate; reflexivity.
Qed.

(** X8: a body that decodes to [null], a first candidate that is [null]
    and a first part that is [null] all end in the [catch]: the
    connectivity message is stored, the summary is left as it was and the
    busy flag goes off. *)
Theorem unreadable_response_ends_in_catch (ok : bool) (result : JSValue) (s : State) :
  (nullish result = true \/
   (ok = true /\
    exists c cs, member "candidates" result = JSArray (c :: cs) /\ nullish c = true) \/
   (ok = true /\
    exists c cs p ps,
      member "candidates" result = JSArray (c :: cs) /\
      member "parts" (member "content" c) = JSArray (p :: ps) /\
      nullish p = true)) ->
  error (snd (summarizeText_resume (Responded ok result) s)) = MSG_NETWORK /\
  summary (snd (summarizeText_resume (Responded ok result) s)) = summary s /\
  loading (snd (summarizeText_resume (Responded ok result) s)) = false.
Proof.
  intros Hcase.
  pose proof (summarizeText_resume_responded ok result s) as H. cbv zeta in H.
  split; [|split; [|apply summarizeText_resume_not_loading]].
  - destruct Hcase as [Hnull|[(-> & c & cs & Hc & Hnull)|(-> & c & cs & p & ps & Hc & Hp & Hnull)]].
    + destruct result; try discriminate; destruct ok; simpl in H; now destruct H.
    + rewrite (is_success_on_null_candidate result c cs Hc Hnull) in H. now destruct H.
    + destruct (is_success_on_first_candidate result c p cs ps Hc Hp) as [Hok Hget].
      rewrite Hok, Hget in H. destruct p; try discriminate; simpl in H; now destruct H.
  - destruct Hcase as [Hnull|[(-> & c & cs & Hc & Hnull)|(-> & c & cs & p & ps & Hc & Hp & Hnull)]].
    + destruct result; try discriminate; destruct ok; simpl in H; now destruct H.
    + rewrite (is_success_on_null_candidate result c cs Hc Hnull) in H. now destruct H.
    + destruct (is_success_on_first_candidate result c p cs ps Hc Hp) as [Hok Hget].
      rewrite Hok, Hget in H. destruct p; try discriminate; simpl in H; now destruct H.
Qed.

(** X10: an attempt that got past the guards and ends with no error
    message took the success branch: the response indicated success,
    passed the test, and the summary is what was read from its first
    part.  Every other outcome leaves a message. *)
Theorem attempt_without_error_took_the_success_branch
    (fetch : FetchRequest -> FetchOutcome) (s : State) (req : FetchRequest) :
  snd (summarizeText_begin s) = Some req ->
  error (fst (summarizeText fetch s)) = "" ->
  exists result text,
    fetch req = Responded true result /\
    is_success true result = Normal true /\
    get_path result ["candidates"; "0"; "content"; "parts"; "0"; "text"] = Normal text /\
    summary (fst (summarizeText fetch s)) = text.
Proof.
  intros Hreq. rewrite (summarizeText_sent fetch s req Hreq). cbn [fst]. intros Herr.
  destruct (fetch req) as [|ok|ok result] eqn:Hfetch; try discriminate.
  pose proof (summarizeText_resume_responded ok result (fst (summarizeText_begin s))) as H.
  cbv zeta in H.
  destruct (is_success ok result) as [[|]|] eqn:Hok.
  - pose proof (is_success_needs_ok ok result Hok) as ->.
    destruct (get_path result _) as [text|] eqn:Hget.
    + exists result, text. destruct H as [H _]. auto.
    + destruct H as [_ H]. rewrite H in Herr. discriminate.
  - destruct H as [_ H]. rewrite H in Herr.
    destruct (failure_message result) as [m|] eqn:Hm; [|discriminate].
    now destruct (failure_message_is_not_empty result m Hm).
  - destruct H as [_ H]. rewrite H in Herr. discriminate.
Qed.

(** ** How attempts compose *)

Lemma State_eta (s : State) :
  s = {| pdfFile := pdfFile s; extractedText := extractedText s; summary := summary s;
         loading := loading s; error := error s |}.
Proof. now destruct s. Qed.

Lemma summarizeText_begin_passes (s : State) :
  extractedText s <> "" ->
  (Z.of_nat (String.length (extractedText s)) <= MAX_LENGTH)%Z ->
  summarizeText_begin s
  = ({| pdfFile := pdfFile s; extractedText := extractedText s; summary := JSString "";
        loading := true; error := "" |},
     Some (request_for (extractedText s))).
Proof.
  intros Htext Hlen.
  destruct (summarizeText_begin_cases s) as [[E _]|[(_ & L & _)|(_ & _ & B)]].
  - contradiction.
  - lia.
  - exact B.
Qed.

(** The message left by an earlier attempt has no part in the next. *)
Lemma summarizeText_forgets_error
    (fetch : FetchRequest -> FetchOutcome) (s : State) (msg : string) :
  summarizeText fetch (snd (setError msg s)) = summarizeText fetch s.
Proof.
  unfold summarizeText, summarizeText_begin. cbn [setError snd extractedText].
  destruct (String.eqb (extractedText s) ""); [reflexivity|].
  destruct (MAX_LENGTH <? Z.of_nat (String.length (extractedText s)))%Z; reflexivity.
Qed.

Lemma summarizeText_keeps (fetch : FetchRequest -> FetchOutcome) (s : State) :
  pdfFile (fst (summarizeText fetch s)) = pdfFile s /\
  extractedText (fst (summarizeText fetch s)) = extractedText s.
Proof.
  unfold summarizeText.
  destruct (summarizeText_begin_cases s) as [[_ B]|[(_ & _ & B)|(_ & _ & B)]];
    rewrite B; cbn [fst]; try (split; reflexivity).
  destruct (summarizeText_resume_keeps (fetch (request_for (extractedText s)))
              (snd ((setLoading true ;; setSummary (JSString "") ;; setError "")%handler s)))
    as [H1 H2].
  rewrite H1, H2. split; reflexivity.
Qed.

(** X11: summarizing changes neither the extracted text nor the document
    handle, and an attempt owes nothing to the attempts before it: after
    any first attempt, whatever its outcome, a second one sends the same
    request and ends in the same state as if it had been the first. *)
Theorem attempts_do_not_depend_on_earlier_ones
    (fetch1 fetch2 : FetchRequest -> FetchOutcome) (s : State) :
  pdfFile (fst (summarizeText fetch1 s)) = pdfFile s /\
  extractedText (fst (summarizeText fetch1 s)) = extractedText s /\
  summarizeText fetch2 (fst (summarizeText fetch1 s)) = summarizeText fetch2 s.
Proof.
  destruct (summarizeText_keeps fetch1 s) as [Hfile Htext].
  split; [exact Hfile|]. split; [exact Htext|].
  destruct (summarizeText_begin_cases s) as [[_ B]|[(_ & _ & B)|(Hne & Hlen & _)]].
  - unfold summarizeText at 2. rewrite B. cbn [fst]. apply summarizeText_forgets_error.
  - unfold summarizeText at 2. rewrite B. cbn [fst]. apply summarizeText_forgets_error.
  - unfold summarizeText at 1 3.
    rewrite (summarizeText_begin_passes s Hne Hlen).
    rewrite (summarizeText_begin_passes (fst (summarizeText fetch1 s)))
      by (rewrite Htext; assumption).
    now rewrite Hfile, Htext.
Qed.

Lemma first_candidate_text_shape (result : JSValue) (X : string) :
  first_candidate_text result = Some X ->
  exists c cs p ps,
    member "candidates" result = JSArray (c :: cs) /\
    member "parts" (member "content" c) = JSArray (p :: ps) /\
    nullish p = false /\
    member "text" p = JSString X.
Proof.
  unfold first_candidate_text. intros H.
  destruct (member "candidates" result) as [| | | | |[|c cs]|] eqn:Hc; try discriminate.
  destruct (member "parts" (member "content" c)) as [| | | | |[|p ps]|] eqn:Hp;
    try discriminate.
  destruct (member "text" p) as [| | | |x| |] eqn:Ht; try discriminate.
  injection H as ->. exists c, cs, p, ps. repeat split; auto.
  destruct (member_is_of_object "text" p) as [pprops ->]; [congruence|reflexivity].
Qed.

(** X12: the whole pipeline.  A PDF whose document yields at least one
    page and a text of at most 50,000 characters is picked and read, the
    button is clicked, and the endpoint answers with success and the
    candidate text X: one request went out, for that text, and the page
    ends with the file, its text, the summary X, no error, and not
    busy. *)
Theorem upload_then_summarize
    (w : Window) (lib : PdfjsLib) (f : File) (pdf : PDFDocumentProxy)
    (pages : list (list string)) (fetch : FetchRequest -> FetchOutcome)
    (result : JSValue) (X : string) (s : State) :
  is_pdf f ->
  pdfjsLib w = Some lib ->
  getDocument lib (bytes f) = Normal pdf ->
  yields_fragments pdf pages ->
  pages <> [] ->
  (Z.of_nat (String.length (spec_extracted_text pages)) <= MAX_LENGTH)%Z ->
  fetch (request_for (spec_extracted_text pages)) = Responded true result ->
  first_candidate_text result = Some X ->
  summarize_button_enabled (fst (selectAndExtract w (Some f) s)) = true /\
  summarizeText fetch (fst (selectAndExtract w (Some f) s))
  = ({| pdfFile := Some f; extractedText := spec_extracted_text pages;
        summary := JSString X; loading := false; error := "" |},
     [request_for (spec_extracted_text pages)]).
Proof.
  intros Hpdf Hlib Hdoc Hyields Hpages Hlen Hfetch Htext.
  assert (Hne : spec_extracted_text pages <> "")
    by (intros E; now apply spec_extracted_text_is_nil in E).
  assert (Hselect : fst (selectAndExtract w (Some f) s)
                    = {| pdfFile := Some f; extractedText := spec_extracted_text pages;
                         summary := JSString ""; loading := false; error := "" |}).
  { unfold selectAndExtract, handleFileChange. unfold is_pdf in Hpdf. rewrite Hpdf.
    rewrite String.eqb_refl. cbv beta iota. cbn [fst].
    now rewrite (reader_onload_stores w lib (bytes f) pdf pages _ Hlib Hdoc Hyields). }
  rewrite Hselect. split.
  - unfold summarize_button_enabled, summarize_button_shown. cbn [extractedText loading].
    destruct (String.eqb_spec (spec_extracted_text pages) ""); [contradiction|reflexivity].
  - unfold summarizeText. rewrite summarizeText_begin_passes by assumption.
    cbn [pdfFile extractedText]. rewrite Hfetch. f_equal.
    destruct (first_candidate_text_shape result X Htext) as (c & cs & p & ps & Hc & Hp & Hn & Ht).
    destruct (is_success_on_first_candidate result c p cs ps Hc Hp) as [Hok Hget].
    set (B := {| pdfFile := Some f; extractedText := spec_extracted_text pages;
                 summary := JSString ""; loading := true; error := "" |}).
    pose proof (summarizeText_resume_responded true result B) as H. cbv zeta in H.
    rewrite Hok, Hget, (Get_named p "text" named_text Hn), Ht in H.
    destruct H as [Hsum Herr].
    destruct (summarizeText_resume_keeps (Responded true result) B) as [Hfile Htxt].
    pose proof (summarizeText_resume_not_loading (Responded true result) B) as Hload.
    rewrite (State_eta (snd (summarizeText_resume (Responded true result) B))).
    now rewrite Hsum, Herr, Hfile, Htxt, Hload.
Qed.

(** ** The ways a callback can end *)

(** The three ways the reader's callback can end. *)
Lemma reader_onload_cases (w : Window) (result : list Byte.byte) (s : State) :
  snd (reader_onload w result s)
  = {| pdfFile := pdfFile s; extractedText := extractedText s; summary := summary s;
       loading := false; error := MSG_LIBRARY_MISSING |} \/
  snd (reader_onload w result s)
  = {| pdfFile := pdfFile s; extractedText := extractedText s; summary := summary s;
       loading := false; error := MSG_EXTRACTION_FAILED |} \/
  exists fullText,
    snd (reader_onload w result s)
    = {| pdfFile := pdfFile s; extractedText := fullText; summary := summary s;
         loading := false; error := error s |}.
Proof.
  unfold reader_onload, try_catch, bind, lift.
  destruct (pdfjsLib w) as [lib|]; [|now left].
  destruct (getDocument lib result) as [pdf|]; [|now right; left].
  destruct (extract_pages pdf 1 (numPages pdf) "") as [fullText|]; [|now right; left].
  right; right. now exists fullText.
Qed.

(** ** What the callbacks never do *)

(** X16: no callback lets an exception out: whatever pdf.js does and
    however the request ends, the reader's callback and the continuation
    of [summarizeText] return normally. *)
Theorem no_exception_escapes
    (w : Window) (result : list Byte.byte) (o : FetchOutcome) (s : State) :
  fst (reader_onload w result s) = Normal tt /\
  fst (summarizeText_resume o s) = Normal tt.
Proof.
  split; [apply reader_onload_returns | apply summarizeText_resume_returns].
Qed.

(** ** Answers, whatever happened since the click *)

Lemma dispatch_settles (a : App) (i : nat) (req : FetchRequest) (o : FetchOutcome) :
  nth_error (fetching a) i = Some req ->
  dispatch (FetchSettle i o) a
  = Some {| ui := snd (summarizeText_resume o (ui a));
            reading := reading a;
            fetching := remove_nth i (fetching a) |}.
Proof.
  intros H. simpl. now rewrite H.
Qed.

(** The success branch writes the summary and nothing else but the busy
    flag. *)
Lemma resume_on_candidate_text (result : JSValue) (X : string) (s : State) :
  first_candidate_text result = Some X ->
  summary (snd (summarizeText_resume (Responded true result) s)) = JSString X /\
  error (snd (summarizeText_resume (Responded true result) s)) = error s.
Proof.
  intros Htext.
  destruct (first_candidate_text_shape result X Htext) as (c & cs & p & ps & Hc & Hp & Hn & Ht).
  destruct (is_success_on_first_candidate result c p cs ps Hc Hp) as [Hok Hget].
  pose proof (summarizeText_resume_responded true result s) as H. cbv zeta in H.
  now rewrite Hok, Hget, (Get_named p "text" named_text Hn), Ht in H.
Qed.

(** C4, amended: when an answer arrives that indicates success and whose
    first candidate's first part carries the text X, the stored summary
    becomes exactly X, the busy flag goes off and the error message is
    left as it was; so the error message is empty afterwards whenever it
    was empty on arrival, as it is when nothing happened between the click
    and the answer. *)
Theorem success_stores_candidate_text (result : JSValue) (X : string) :
  first_candidate_text result = Some X ->
  (forall a i req,
      nth_error (fetching a) i = Some req ->
      exists a',
        dispatch (FetchSettle i (Responded true result)) a = Some a' /\
        summary (ui a') = JSString X /\
        error (ui a') = error (ui a) /\
        loading (ui a') = false) /\
  (forall fetch s req,
      snd (summarizeText_begin s) = Some req ->
      fetch req = Responded true result ->
      summary (fst (summarizeText fetch s)) = JSString X /\
      error (fst (summarizeText fetch s)) = "").
Proof.
  intros Htext. split.
  - intros a i req Hreq. rewrite (dispatch_settles a i req _ Hreq).
    eexists. split; [reflexivity|]. cbn [ui].
    destruct (resume_on_candidate_text result X (ui a) Htext) as [H1 H2].
    split; [exact H1|]. split; [exact H2|]. apply summarizeText_resume_not_loading.
  - intros fetch s req Hreq Hfetch.
    rewrite (summarizeText_sent fetch s req Hreq), Hfetch. cbn [fst].
    destruct (summarizeText_begin_sends s req Hreq) as (_ & _ & Herr & _).
    destruct (resume_on_candidate_text result X (fst (summarizeText_begin s)) Htext)
      as [H1 H2].
    split; [exact H1 | now rewrite H2].
Qed.




(** An event leaves the summary, or empties it, or is an answer that took
    the success branch. *)
Lemma dispatch_summary (e : Event) (a a' : App) :
  dispatch e a = Some a' ->
  summary (ui a') = summary (ui a) \/
  summary (ui a') = JSString "" \/
  exists i ok result,
    e = FetchSettle i (Responded ok result) /\ is_success ok result = Normal true.
Proof.
  intros Hstep. destruct e as [file|i w| |i o]; simpl in Hstep.
  - right; left.
    destruct (handleFileChange_cases file (ui a)) as [(f & _ & _ & E)|(_ & E)];
      rewrite E in Hstep; now injection Hstep as <-.
  - left. destruct (nth_error (reading a) i) as [f|]; [|discriminate].
    injection Hstep as <-. cbn [ui]. apply reader_onload_keeps.
  - destruct (summarize_button_enabled (ui a)); [|discriminate].
    destruct (summarizeText_begin_cases (ui a)) as [[_ E]|[(_ & _ & E)|(_ & _ & E)]];
      rewrite E in Hstep; injection Hstep as <-; simpl; auto.
  - destruct (nth_error (fetching a) i) as [r|]; [|discriminate].
    injection Hstep as <-. cbn [ui].
    destruct o as [|ok|ok result]; try (left; reflexivity).
    pose proof (summarizeText_resume_responded ok result (ui a)) as H. cbv zeta in H.
    destruct (is_success ok result) as [[|]|] eqn:Hok.
    + right; right. now exists i, ok, result.
    + left. now destruct H.
    + left. now destruct H.
Qed.

Lemma run_summary (events : list Event) :
  forall a a',
    summary (ui a) = JSString "" ->
    run events a = Some a' ->
    summary (ui a') <> JSString "" ->
    success_among events.
Proof.
  induction events as [|e rest IH]; intros a a' Hempty Hrun Hfull; simpl in Hrun.
  - injection Hrun as <-. contradiction.
  - destruct (dispatch e a) as [a1|] eqn:Hstep; [|discriminate].
    destruct (JSValue_eq_empty (summary (ui a1))) as [E|E].
    + destruct (IH a1 a' E Hrun Hfull) as (i & ok & result & Hin & Hok).
      exists i, ok, result. split; [now right | exact Hok].
    + destruct (dispatch_summary e a a1 Hstep) as [H|[H|(i & ok & result & -> & Hok)]].
      * rewrite H in E. contradiction.
      * contradiction.
      * exists i, ok, result. split; [now left | exact Hok].
Qed.

(** C8, amended: an attempt that passes both guards clears the stored
    summary and error message before its request goes out; an attempt
    that a guard turns away returns before the clearing: it leaves the
    stored summary as it was and stores that guard's message.  Once
    cleared, the summary stays empty until an answer takes the success
    branch, whichever request it answers. *)
Theorem passing_attempt_clears_previous_result (s : State) :
  (forall req,
      snd (summarizeText_begin s) = Some req ->
      summary (fst (summarizeText_begin s)) = JSString "" /\
      error (fst (summarizeText_begin s)) = "") /\
  (snd (summarizeText_begin s) = None ->
   summary (fst (summarizeText_begin s)) = summary s /\
   error (fst (summarizeText_begin s))
   = if String.eqb (extractedText s) "" then MSG_NO_TEXT else MSG_TOO_LONG) /\
  (forall events a a',
      summary (ui a) = JSString "" ->
      run events a = Some a' ->
      summary (ui a') <> JSString "" ->
      success_among events).
Proof.
  split; [|split].
  - intros req Hreq.
    destruct (summarizeText_begin_sends s req Hreq) as (_ & Hsum & Herr & _). auto.
  - destruct (summarizeText_begin_cases s) as [[E B]|[(E & _ & B)|(_ & _ & B)]];
      rewrite B; simpl; intros H; try discriminate.
    + rewrite E. split; reflexivity.
    + destruct (String.eqb_spec (extractedText s) ""); [contradiction|]. split; reflexivity.
  - intros events. apply run_summary.
Qed.

(** X9: when an answer arrives that indicates success and whose first
    candidate has a first part that is not [null], the summary becomes
    whatever the part's text field holds, a string or not, and
    [undefined] when the part has none; the answer stores no error: the
    message is left as it was, and the busy flag goes off.  For a missing
    text the page shows no summary, and no alert either when none was
    shown before, as after an attempt that nothing interrupted. *)
Theorem success_stores_the_text_field_as_it_is
    (result c p : JSValue) (cs ps : list JSValue) (s : State) :
  member "candidates" result = JSArray (c :: cs) ->
  member "parts" (member "content" c) = JSArray (p :: ps) ->
  nullish p = false ->
  summary (snd (summarizeText_resume (Responded true result) s)) = member "text" p /\
  error (snd (summarizeText_resume (Responded true result) s)) = error s /\
  loading (snd (summarizeText_resume (Responded true result) s)) = false /\
  (member "text" p = JSUndefined ->
   exists v,
     render (snd (summarizeText_resume (Responded true result) s)) = Normal v /\
     summary_view v = NoSummary /\
     (error s = "" -> alert v = None)) /\
  (forall fetch s0 req,
      snd (summarizeText_begin s0) = Some req ->
      fetch req = Responded true result ->
      error (fst (summarizeText fetch s0)) = "").
Proof.
  intros Hc Hp Hnull.
  destruct (is_success_on_first_candidate result c p cs ps Hc Hp) as [Hok Hget].
  assert (Hresume : forall st,
             summary (snd (summarizeText_resume (Responded true result) st))
             = member "text" p /\
             error (snd (summarizeText_resume (Responded true result) st)) = error st).
  { intros st.
    pose proof (summarizeText_resume_responded true result st) as H. cbv zeta in H.
    now rewrite Hok, Hget, (Get_named p "text" named_text Hnull) in H. }
  destruct (Hresume s) as [H1 H2].
  split; [exact H1|]. split; [exact H2|].
  split; [apply summarizeText_resume_not_loading|]. split.
  - intros Hmissing. unfold render. rewrite H1, H2, Hmissing. cbn [ToBoolean andb].
    eexists. split; [reflexivity|]. cbn [summary_view alert]. split; [reflexivity|].
    now intros ->.
  - intros fetch s0 req Hreq Hfetch.
    rewrite (summarizeText_sent fetch s0 req Hreq), Hfetch. cbn [fst].
    destruct (summarizeText_begin_sends s0 req Hreq) as (_ & _ & Herr & _).
    now rewrite (proj2 (Hresume _)).
Qed.

(** ** What the page shows *)

Lemma perform_keeps_at_rest (op : Operation) (s : State) :
  at_rest s -> at_rest (perform op s).
Proof.
  intros Hrest. pose proof Hrest as (Hidle & Hfile & Hsum & Herr).
  unfold perform. destruct (render s) as [_|]; [|exact Hrest].
  destruct op as [w file|fetch].
  - unfold selectAndExtract.
    destruct (handleFileChange_cases file s) as [(f & _ & _ & E)|(_ & E)]; rewrite E; cbn [fst].
    + destruct (reader_onload_cases w (bytes f)
                  {| pdfFile := Some f; extractedText := ""; summary := JSString "";
                     loading := true; error := "" |}) as [R|[R|[t R]]];
        rewrite R; unfold at_rest; cbn; repeat split; auto; try discriminate; try congruence.
    + unfold at_rest; cbn. repeat split; auto; intros H; now destruct H.
  - destruct (summarize_button_enabled s) eqn:Hen; [|exact Hrest].
    unfold summarizeText.
    destruct (summarizeText_begin_cases s) as [[E B]|[(Hne & Hlong & B)|(Hne & Hlen & B)]];
      rewrite B; cbn [fst].
    + unfold at_rest; cbn. repeat split; auto.
      intros Hs. destruct Hs. apply Hsum. now left.
    + unfold at_rest; cbn. repeat split; auto.
      intros Hs. destruct Hs. apply Hsum. now right.
    + set (B0 := snd ((setLoading true ;; setSummary (JSString "") ;; setError "")%handler s)).
      destruct (summarizeText_resume_keeps (fetch (request_for (extractedText s))) B0)
        as [Kfile Ktext].
      pose proof (summarizeText_resume_not_loading (fetch (request_for (extractedText s))) B0)
        as Kload.
      unfold at_rest. rewrite Kfile, Ktext, Kload.
      change (extractedText B0) with (extractedText s).
      change (pdfFile B0) with (pdfFile s).
      split; [reflexivity|]. split; [exact Hfile|]. split.
      * intros [E|L]; [contradiction|lia].
      * destruct (fetch (request_for (extractedText s))) as [|ok|ok result];
          try (intros Hs; now destruct Hs).
        pose proof (summarizeText_resume_responded ok result B0) as H. cbv zeta in H.
        destruct (is_success ok result) as [[|]|].
        -- destruct (get_path result _); destruct H as [H1 H2]; rewrite H1, H2;
             [reflexivity | intros Hs; now destruct Hs].
        -- destruct H as [H1 _]. rewrite H1. intros Hs. now destruct Hs.
        -- destruct H as [H1 _]. rewrite H1. intros Hs. now destruct Hs.
Qed.

Lemma perform_all_keeps_at_rest (ops : list Operation) :
  forall s, at_rest s -> at_rest (perform_all ops s).
Proof.
  unfold perform_all.
  induction ops as [|op rest IH]; intros s Hs; simpl; [exact Hs|].
  apply IH. now apply perform_keeps_at_rest.
Qed.

Lemma initial_state_at_rest : at_rest initial_state.
Proof.
  unfold at_rest; simpl. repeat split; auto.
Qed.

(** X13: used without overlap, each operation running to its end before
    the next begins, the page, as long as it renders, never shows the
    spinner between operations; whenever it shows a summary it shows no
    alert and the button is there and enabled; and whenever it shows the
    button, a file is selected and named in the upload area.  The page
    fails to render exactly when the stored summary is truthy and not
    something React can show. *)
Theorem page_between_operations (ops : list Operation) :
  let s := perform_all ops initial_state in
  (render s = Throw <-> ToBoolean (summary s) = true /\ displayable (summary s) = false) /\
  forall v,
    render s = Normal v ->
    spinner v = None /\
    (summary_view v <> NoSummary ->
     alert v = None /\
     summarize_button v = Some {| disabled := false; caption := "Summarize PDF" |}) /\
    (summarize_button v <> None ->
     exists f, pdfFile s = Some f /\ upload_caption v = "Selected: " ++ name f).
Proof.
  intros s.
  destruct (perform_all_keeps_at_rest ops initial_state initial_state_at_rest)
    as (Hidle & Hfile & Hsum & Herr).
  fold s in Hidle, Hfile, Hsum, Herr.
  unfold render. split.
  - destruct (ToBoolean (summary s)); destruct (displayable (summary s)); simpl;
      split; try discriminate; try (intros [? ?]; discriminate); auto.
  - destruct (ToBoolean (summary s) && negb (displayable (summary s))); [discriminate|].
    intros v Hv. injection Hv as <-.
    cbn [spinner alert summarize_button summary_view upload_caption].
    rewrite Hidle. split; [reflexivity|]. split.
    + intros Hview.
      assert (Hs : summary s <> JSString "").
      { intros E. rewrite E in Hview. now apply Hview. }
      rewrite (Herr Hs). split; [reflexivity|].
      destruct (String.eqb_spec (extractedText s) "") as [E|_]; [|reflexivity].
      now destruct Hs; apply Hsum; left.
    + destruct (String.eqb_spec (extractedText s) "") as [E|E]; simpl; [congruence|].
      intros _. destruct (pdfFile s) as [f|]; [now exists f|].
      now destruct E; apply Hfile.
Qed.

(** X14: right after a PDF is picked the page shows its name, the spinner
    reading "Extracting text..." and nothing else; right after a click
    that the guards let through it shows the spinner reading
    "Summarizing...", the button disabled under the same caption, and
    neither alert nor summary. *)
Theorem page_while_busy (f : File) (s : State) :
  (is_pdf f ->
   render (fst (handleFileChange (Some f) s))
   = Normal {| upload_caption := "Selected: " ++ name f;
               spinner := Some "Extracting text...";
               alert := None;
               summarize_button := None;
               summary_view := NoSummary |}) /\
  (forall req,
      snd (summarizeText_begin s) = Some req ->
      render (fst (summarizeText_begin s))
      = Normal {| upload_caption :=
                    match pdfFile s with
                    | Some g => "Selected: " ++ name g
                    | None => "Upload a PDF Document"
                    end;
                  spinner := Some "Summarizing...";
                  alert := None;
                  summarize_button :=
                    Some {| disabled := true; caption := "Summarizing..." |};
                  summary_view := NoSummary |}).
Proof.
  split.
  - unfold is_pdf. intros Hpdf. unfold handleFileChange. rewrite Hpdf. reflexivity.
  - intros req Hreq.
    destruct (summarizeText_begin_cases s) as [[_ B]|[(_ & _ & B)|(Hne & _ & B)]];
      rewrite B in *; try discriminate.
    unfold render; cbn.
    destruct (String.eqb_spec (extractedText s) "") as [E|_]; [contradiction|].
    reflexivity.
Qed.

(** X15: a selection that is rejected does not touch the busy flag.  Made
    while the page is busy, it leaves the spinner turning, now reading
    "Extracting text..." since the text was cleared, beside the alert. *)
Theorem rejected_selection_while_busy (file : option File) (s : State) :
  (forall f, file = Some f -> ~ is_pdf f) ->
  loading (fst (handleFileChange file s)) = loading s /\
  (loading s = true ->
   render (fst (handleFileChange file s))
   = Normal {| upload_caption := "Upload a PDF Document";
               spinner := Some "Extracting text...";
               alert := Some MSG_NOT_A_PDF;
               summarize_button := None;
               summary_view := NoSummary |}).
Proof.
  intros Hfile.
  destruct (handleFileChange_cases file s) as [(f & E & Hpdf & _)|(_ & E)].
  - now destruct (Hfile f E).
  - rewrite E. cbn [fst loading]. split; [reflexivity|].
    intros Hbusy. unfold render; cbn. now rewrite Hbusy.
Qed.

(** ** Where the messages come from *)

Lemma message_after_more (prev more : list Event) (e : string) :
  message_after prev e -> message_after (prev ++ more) e.
Proof.
  intros [H|[H|(result & (i & ok & Hin) & Hm)]]; [now left | now right; left |].
  right; right. exists result. split; [|exact Hm].
  exists i, ok. apply in_or_app. now left.
Qed.

Lemma handler_message_after (prev : list Event) (e : string) :
  handler_message e -> message_after prev e.
Proof. intros H. right; left. exact H. Qed.

Lemma dispatch_message (prev : list Event) (e : Event) (a a' : App) :
  message_after prev (error (ui a)) ->
  dispatch e a = Some a' ->
  message_after (prev ++ [e]) (error (ui a')).
Proof.
  intros Hs Hstep.
  assert (Hh : forall m, handler_message m -> message_after (prev ++ [e]) m)
    by (intros m; apply handler_message_after).
  pose proof (message_after_more prev [e] _ Hs) as Hkeep.
  destruct e as [file|i w| |i o]; simpl in Hstep.
  - destruct (handleFileChange_cases file (ui a)) as [(f & _ & _ & E)|(_ & E)];
      rewrite E in Hstep; injection Hstep as <-; simpl.
    + now left.
    + apply Hh. unfold handler_message; simpl; tauto.
  - destruct (nth_error (reading a) i) as [f|]; [|discriminate].
    injection Hstep as <-. cbn [ui].
    destruct (reader_onload_cases w (bytes f) (ui a)) as [R|[R|[t R]]]; rewrite R; simpl.
    + apply Hh. unfold handler_message; simpl; tauto.
    + apply Hh. unfold handler_message; simpl; tauto.
    + exact Hkeep.
  - destruct (summarize_button_enabled (ui a)); [|discriminate].
    destruct (summarizeText_begin_cases (ui a)) as [[_ E]|[(_ & _ & E)|(_ & _ & E)]];
      rewrite E in Hstep; injection Hstep as <-; simpl.
    + apply Hh. unfold handler_message; simpl; tauto.
    + apply Hh. unfold handler_message; simpl; tauto.
    + now left.
  - destruct (nth_error (fetching a) i) as [r|]; [|discriminate].
    injection Hstep as <-. cbn [ui].
    assert (Hnet : message_after (prev ++ [FetchSettle i o]) MSG_NETWORK)
      by (apply Hh; unfold handler_message; simpl; tauto).
    destruct o as [|ok|ok result]; try exact Hnet.
    pose proof (summarizeText_resume_responded ok result (ui a)) as H. cbv zeta in H.
    destruct (is_success ok result) as [[|]|].
    + destruct (get_path result _); destruct H as [_ H]; rewrite H; [exact Hkeep|exact Hnet].
    + destruct H as [_ H]. rewrite H.
      destruct (failure_message result) as [m|] eqn:Hm; [|exact Hnet].
      right; right. exists result. split; [|exact Hm].
      exists i, ok. apply in_or_app. right. now left.
    + destruct H as [_ H]. now rewrite H.
Qed.

(** X17: on every page reached from the initial one the error message is
    empty, or one of the six messages the handlers store on their own
    account, or the message the priority order makes of a response that
    arrived on the way: the message of its error object behind
    "API Error: ", its block reason in the blocked-summary frame, the
    no-candidates or the unexpected-response message. *)
Theorem alert_shows_only_controller_messages (events : list Event) (a : App) :
  run events initial_app = Some a ->
  message_after events (error (ui a)).
Proof.
  assert (Hrun : forall rest prev b b',
             message_after prev (error (ui b)) ->
             run rest b = Some b' ->
             message_after (prev ++ rest) (error (ui b'))).
  { induction rest as [|e rest IH]; intros prev b b' Hs Hr; simpl in Hr.
    - injection Hr as <-. now rewrite app_nil_r.
    - destruct (dispatch e b) as [b1|] eqn:Hstep; [|discriminate].
      pose proof (IH (prev ++ [e])%list b1 b' (dispatch_message prev e b b1 Hs Hstep) Hr) as H.
      now rewrite <- app_assoc in H. }
  intros Hr. apply (Hrun events [] initial_app a); [now left | exact Hr].
Qed.

End Runtime.

(** * The properties at the sample inputs *)

Lemma map_str_items (fragments : list string) :
  map str (items {| items := map (fun t => {| str := t |}) fragments |}) = fragments.
Proof.
  simpl. induction fragments as [|x l IH]; simpl; [reflexivity | now rewrite IH].
Qed.

Lemma sample_document_yields (pages : list (list string)) :
  yields_fragments (sample_document pages) pages.
Proof.
  split; [reflexivity|].
  intros i fragments Hi.
  exists (sample_page fragments), {| items := map (fun t => {| str := t |}) fragments |}.
  simpl. rewrite Hi. repeat split. apply map_str_items.
Qed.

(** The two-page scenario: fragments Hello, world and Bye. *)
Lemma extraction_concatenates_pages_witness :
  pdfjsLib sample_window = Some sample_pdfjs /\
  getDocument sample_pdfjs (bytes small_pdf) = Normal (sample_document two_pages) /\
  yields_fragments (sample_document two_pages) two_pages /\
  extractedText (snd (reader_onload sample_window (bytes small_pdf) initial_state))
  = "Hello world" ++ LF ++ "Bye" ++ LF.
Proof.
  split; [reflexivity|]. split; [reflexivity|]. split; [apply sample_document_yields|].
  exact (extraction_concatenates_pages sample_window sample_pdfjs (bytes small_pdf)
           (sample_document two_pages) two_pages initial_state
           eq_refl eq_refl (sample_document_yields two_pages)).
Defined.

(** A request in flight is rejected. *)
Lemma attempts_conclude_not_busy_witness :
  dispatch sample_number_to_string sample_string_to_number
    (FetchSettle 0 FetchRejected) summarizing_app = Some rejected_app /\
  concludes_attempt (FetchSettle 0 FetchRejected) summarizing_app = true /\
  loading (ui summarizing_app) = true /\
  loading (ui rejected_app) = false.
Proof.
  split; [reflexivity|]. split; [reflexivity|]. split; [reflexivity|].
  exact (attempts_conclude_not_busy sample_number_to_string sample_string_to_number
           (FetchSettle 0 FetchRejected) summarizing_app rejected_app eq_refl eq_refl).
Defined.

(** Summarizing before any extraction, and with 50,001 characters. *)
Lemma guards_stop_before_the_network_witness :
  (extractedText initial_state = "" /\
   snd (summarizeText sample_number_to_string sample_string_to_number
          (answering FetchRejected) initial_state) = [] /\
   error (fst (summarizeText sample_number_to_string sample_string_to_number
                 (answering FetchRejected) initial_state)) = MSG_NO_TEXT) /\
  ((MAX_LENGTH < Z.of_nat (String.length (extractedText state_over_maximum)))%Z /\
   snd (summarizeText sample_number_to_string sample_string_to_number
          (answering FetchRejected) state_over_maximum) = [] /\
   error (fst (summarizeText sample_number_to_string sample_string_to_number
                 (answering FetchRejected) state_over_maximum)) = MSG_TOO_LONG).
Proof.
  split.
  - split; [reflexivity|].
    destruct (proj1 (guards_stop_before_the_network sample_number_to_string
                       sample_string_to_number (answering FetchRejected) initial_state)
                eq_refl) as (A & _ & B).
    split; assumption.
  - assert (L : (MAX_LENGTH < Z.of_nat (String.length (extractedText state_over_maximum)))%Z)
      by (vm_compute; reflexivity).
    split; [exact L|].
    destruct (proj2 (guards_stop_before_the_network sample_number_to_string
                       sample_string_to_number (answering FetchRejected) state_over_maximum)
                L) as (A & _ & B).
    split; assumption.
Defined.

(** A text file is picked after the small document was extracted. *)
Lemma non_pdf_is_rejected_witness :
  type notes_txt <> "application/pdf" /\
  handleFileChange (Some notes_txt) extracted_state
  = ({| pdfFile := None; extractedText := ""; summary := JSString "";
        loading := false; error := MSG_NOT_A_PDF |}, None) /\
  error (fst (handleFileChange (Some notes_txt) extracted_state)) <> "".
Proof.
  split; [discriminate|]. split; [reflexivity|].
  refine (proj1 (proj2 (proj2 (proj2 (proj2
            (non_pdf_is_rejected (Some notes_txt) extracted_state _)))))).
  intros f E. injection E as <-. discriminate.
Defined.

(** The large document is picked while an error is shown. *)
Lemma pdf_selection_clears_and_goes_busy_witness :
  type large_pdf = "application/pdf" /\
  handleFileChange (Some large_pdf) rejected_app.(ui)
  = ({| pdfFile := Some large_pdf; extractedText := ""; summary := JSString "";
        loading := true; error := "" |}, Some large_pdf) /\
  loading (fst (handleFileChange (Some large_pdf) rejected_app.(ui))) = true.
Proof.
  split; [reflexivity|]. split; [reflexivity|].
  exact (proj1 (proj2 (proj2 (proj2 (proj2
           (pdf_selection_clears_and_goes_busy large_pdf rejected_app.(ui) eq_refl)))))).
Defined.

(** C8 as stated fails: the page reaches, by the overlapping events, a
    state with the summary of the small document and the text of the
    large one; the button is enabled there, the click is turned away by
    the length guard, no request goes out, and the summary of the earlier
    attempt is still stored. *)
Lemma guard_failure_keeps_previous_summary :
  option_map (fun a => (summary (ui a), summarize_button_enabled (ui a)))
    (run sample_number_to_string sample_string_to_number overlapping_events initial_app)
  = Some (JSString "A short summary.", true) /\
  option_map (fun a => (summary (ui a), error (ui a), fetching a))
    (run sample_number_to_string sample_string_to_number
       (overlapping_events ++ [SummarizeClick]) initial_app)
  = Some (JSString "A short summary.", MSG_TOO_LONG, []) /\
  JSString "A short summary." <> JSString "".
Proof.
  split; [vm_compute; reflexivity|]. split; [vm_compute; reflexivity|]. discriminate.
Qed.

(** The read of the small document completes in a page without pdf.js. *)
Lemma missing_library_is_reported_witness :
  pdfjsLib bare_window = None /\
  loading (ui reading_app) = true /\
  error (snd (reader_onload bare_window (bytes small_pdf) (ui reading_app)))
  = MSG_LIBRARY_MISSING /\
  loading (snd (reader_onload bare_window (bytes small_pdf) (ui reading_app))) = false.
Proof.
  split; [reflexivity|]. split; [reflexivity|].
  destruct (missing_library_is_reported sample_number_to_string sample_string_to_number
              bare_window (bytes small_pdf) (ui reading_app) eq_refl)
    as (_ & A & B & _).
  split; assumption.
Defined.

(** Exactly 50,000 characters go out; 50,001 do not. *)
Lemma maximum_length_is_strict_witness :
  Z.of_nat (String.length (extractedText state_at_maximum)) = 50000%Z /\
  snd (summarizeText sample_number_to_string sample_string_to_number
         (answering FetchRejected) state_at_maximum)
  = [request_for (extractedText state_at_maximum)] /\
  (50000 < Z.of_nat (String.length (extractedText state_over_maximum)))%Z /\
  snd (summarizeText sample_number_to_string sample_string_to_number
         (answering FetchRejected) state_over_maximum) = [].
Proof.
  assert (E : Z.of_nat (String.length (extractedText state_at_maximum)) = 50000%Z)
    by (vm_compute; reflexivity).
  assert (L : (50000 < Z.of_nat (String.length (extractedText state_over_maximum)))%Z)
    by (vm_compute; reflexivity).
  assert (N : extractedText state_over_maximum <> "").
  { intros H. apply (f_equal (fun t => String.eqb t "")) in H.
    vm_compute in H. discriminate. }
  split; [exact E|].
  split.
  - exact (proj1 (proj2 (maximum_length_is_strict sample_number_to_string
                           sample_string_to_number (answering FetchRejected)
                           state_at_maximum)) E).
  - split; [exact L|].
    exact (proj1 (proj2 (proj2 (proj2 (maximum_length_is_strict sample_number_to_string
                                         sample_string_to_number (answering FetchRejected)
                                         state_over_maximum)) N) L)).
Defined.

(** * The further properties at the sample inputs *)

(** The second page of a two-page document cannot be read. *)
Lemma failed_extraction_drops_partial_text_witness :
  pdfjsLib broken_window = Some broken_pdfjs /\
  getDocument broken_pdfjs (bytes small_pdf) = Normal broken_document /\
  page_fails broken_document 1 = false /\
  page_fails broken_document 2 = true /\
  snd (reader_onload broken_window (bytes small_pdf) (ui reading_app))
  = {| pdfFile := Some small_pdf; extractedText := ""; summary := JSString "";
       loading := false; error := MSG_EXTRACTION_FAILED |}.
Proof.
  split; [reflexivity|]. split; [reflexivity|]. split; [reflexivity|]. split; [reflexivity|].
  refine (failed_extraction_drops_partial_text broken_window broken_pdfjs (bytes small_pdf)
            (ui reading_app) eq_refl _).
  right. exists broken_document, 2. split; [reflexivity|]. split; [simpl; lia|reflexivity].
Defined.

(** The read of the small document completes after a text file was
    picked. *)
Lemma superseded_extraction_is_stored_witness :
  nth_error (reading reading_app) 0 = Some small_pdf /\
  type notes_txt <> "application/pdf" /\
  option_map ui (run sample_number_to_string sample_string_to_number
                   [FileChange (Some notes_txt); ReaderLoad 0 sample_window] reading_app)
  = Some {| pdfFile := None; extractedText := spec_extracted_text two_pages;
            summary := JSString ""; loading := false; error := MSG_NOT_A_PDF |}.
Proof.
  split; [reflexivity|]. split; [discriminate|].
  assert (Hother : forall g, Some notes_txt = Some g -> type g <> "application/pdf").
  { intros g E. injection E as <-. discriminate. }
  destruct (superseded_extraction_is_stored sample_number_to_string sample_string_to_number
              reading_app 0 small_pdf (Some notes_txt) sample_window sample_pdfjs
              (sample_document two_pages) two_pages
              eq_refl Hother eq_refl eq_refl (sample_document_yields two_pages))
    as (a' & Hrun & Hui).
  rewrite Hrun. simpl. now rewrite Hui.
Defined.

(** After the first click on the small document. *)
Lemma pending_work_passed_the_checks_witness :
  run sample_number_to_string sample_string_to_number first_click_events initial_app
  = Some summarizing_app /\
  Forall is_pdf (reading summarizing_app) /\
  Forall guarded_request (fetching summarizing_app) /\
  (forall f, pdfFile (ui summarizing_app) = Some f -> is_pdf f).
Proof.
  split; [reflexivity|].
  exact (pending_work_passed_the_checks sample_number_to_string sample_string_to_number
           first_click_events summarizing_app eq_refl).
Defined.

Lemma busy_only_while_pending_witness :
  run sample_number_to_string sample_string_to_number first_click_events initial_app
  = Some summarizing_app /\
  loading (ui summarizing_app) = true /\
  (reading summarizing_app <> [] \/ fetching summarizing_app <> []).
Proof.
  split; [reflexivity|]. split; [reflexivity|].
  exact (busy_only_while_pending sample_number_to_string sample_string_to_number
           first_click_events summarizing_app eq_refl eq_refl).
Defined.

(** A click, a lost request and a second click. *)
Lemma button_keeps_one_request_in_flight_witness :
  run sample_number_to_string sample_string_to_number retry_events extracted_app
  = Some summarizing_app /\
  forallb (fun e => negb (is_file_change e)) retry_events = true /\
  List.length (fetching summarizing_app) <= 1 /\
  (loading (ui summarizing_app) = true <-> fetching summarizing_app <> []).
Proof.
  split; [reflexivity|]. split; [reflexivity|].
  exact (button_keeps_one_request_in_flight sample_number_to_string sample_string_to_number
           retry_events extracted_app summarizing_app
           eq_refl eq_refl eq_refl eq_refl eq_refl).
Defined.

Lemma request_carries_the_text_witness :
  request_for "Hello" = request_for "Hello" /\
  substring (String.length (prompt_for "")) (String.length "Hello") (prompt_for "Hello")
  = "Hello".
Proof.
  split; [reflexivity|].
  exact (proj1 (proj2 (request_carries_the_text "Hello"))).
Defined.

(** The endpoint answers with a candidate list holding [null]. *)
Lemma unreadable_response_ends_in_catch_witness :
  member "candidates" null_candidate_response = JSArray [JSNull] /\
  error (snd (summarizeText_resume sample_number_to_string sample_string_to_number
                (Responded true null_candidate_response) (ui summarizing_app)))
  = MSG_NETWORK /\
  loading (snd (summarizeText_resume sample_number_to_string sample_string_to_number
                  (Responded true null_candidate_response) (ui summarizing_app)))
  = false.
Proof.
  split; [reflexivity|].
  assert (Hcase : nullish null_candidate_response = true \/
                  (true = true /\
                   exists c cs,
                     member "candidates" null_candidate_response = JSArray (c :: cs) /\
                     nullish c = true) \/
                  (true = true /\
                   exists c cs p ps,
                     member "candidates" null_candidate_response = JSArray (c :: cs) /\
                     member "parts" (member "content" c) = JSArray (p :: ps) /\
                     nullish p = true)).
  { right; left. split; [reflexivity|]. exists JSNull, []. split; reflexivity. }
  destruct (unreadable_response_ends_in_catch sample_number_to_string sample_string_to_number
              true null_candidate_response (ui summarizing_app) Hcase) as (A & _ & B).
  split; assumption.
Defined.

Lemma attempt_without_error_took_the_success_branch_witness :
  snd (summarizeText_begin extracted_state)
  = Some (request_for (spec_extracted_text two_pages)) /\
  error (fst (summarizeText sample_number_to_string sample_string_to_number
                (answering (Responded true (candidate_response "A short summary.")))
                extracted_state)) = "" /\
  exists result text,
    answering (Responded true (candidate_response "A short summary."))
      (request_for (spec_extracted_text two_pages)) = Responded true result /\
    is_success sample_number_to_string sample_string_to_number true result = Normal true /\
    get_path result ["candidates"; "0"; "content"; "parts"; "0"; "text"] = Normal text /\
    summary (fst (summarizeText sample_number_to_string sample_string_to_number
                    (answering (Responded true (candidate_response "A short summary.")))
                    extracted_state)) = text.
Proof.
  split; [reflexivity|]. split; [reflexivity|].
  exact (attempt_without_error_took_the_success_branch
           sample_number_to_string sample_string_to_number
           (answering (Responded true (candidate_response "A short summary.")))
           extracted_state (request_for (spec_extracted_text two_pages))
           eq_refl eq_refl).
Defined.

(** The two-page scenario from the selection to the summary. *)
Lemma upload_then_summarize_witness :
  is_pdf small_pdf /\
  two_pages <> [] /\
  (Z.of_nat (String.length (spec_extracted_text two_pages)) <= MAX_LENGTH)%Z /\
  first_candidate_text (candidate_response "A short summary.") = Some "A short summary." /\
  summarizeText sample_number_to_string sample_string_to_number
    (answering (Responded true (candidate_response "A short summary.")))
    (fst (selectAndExtract sample_window (Some small_pdf) initial_state))
  = ({| pdfFile := Some small_pdf; extractedText := spec_extracted_text two_pages;
        summary := JSString "A short summary."; loading := false; error := "" |},
     [request_for (spec_extracted_text two_pages)]).
Proof.
  assert (Hlen : (Z.of_nat (String.length (spec_extracted_text two_pages)) <= MAX_LENGTH)%Z)
    by (vm_compute; discriminate).
  assert (Hpages : two_pages <> []) by discriminate.
  split; [reflexivity|]. split; [exact Hpages|]. split; [exact Hlen|]. split; [reflexivity|].
  exact (proj2 (upload_then_summarize sample_number_to_string sample_string_to_number
                  sample_window sample_pdfjs small_pdf (sample_document two_pages) two_pages
                  (answering (Responded true (candidate_response "A short summary.")))
                  (candidate_response "A short summary.") "A short summary." initial_state
                  eq_refl eq_refl eq_refl (sample_document_yields two_pages)
                  Hpages Hlen eq_refl eq_refl)).
Defined.

(** * The revised properties at the sample inputs *)

(** C4 as stated fails: a text file is picked while the request for the
    small document is in flight; the answer indicates success and carries
    the candidate text, the summary is stored, and the error message
    afterwards is the notice of the rejected selection, not empty. *)
Lemma success_answer_beside_an_alert :
  first_candidate_text (candidate_response "A short summary.") = Some "A short summary." /\
  option_map (fun a => (summary (ui a), error (ui a), loading (ui a)))
    (run sample_number_to_string sample_string_to_number
       interrupted_success_events initial_app)
  = Some (JSString "A short summary.", MSG_NOT_A_PDF, false) /\
  MSG_NOT_A_PDF <> "".
Proof.
  split; [reflexivity|]. split; [reflexivity|]. discriminate.
Qed.

(** The answer for the request in flight, and the attempt that nothing
    interrupts. *)
Lemma success_stores_candidate_text_witness :
  first_candidate_text (candidate_response "A short summary.") = Some "A short summary." /\
  nth_error (fetching summarizing_app) 0
  = Some (request_for (spec_extracted_text two_pages)) /\
  (exists a',
      dispatch sample_number_to_string sample_string_to_number
        (FetchSettle 0 (Responded true (candidate_response "A short summary.")))
        summarizing_app = Some a' /\
      summary (ui a') = JSString "A short summary." /\
      error (ui a') = error (ui summarizing_app) /\
      loading (ui a') = false) /\
  snd (summarizeText_begin extracted_state)
  = Some (request_for (spec_extracted_text two_pages)) /\
  summary (fst (summarizeText sample_number_to_string sample_string_to_number
                  (answering (Responded true (candidate_response "A short summary.")))
                  extracted_state)) = JSString "A short summary." /\
  error (fst (summarizeText sample_number_to_string sample_string_to_number
                (answering (Responded true (candidate_response "A short summary.")))
                extracted_state)) = "".
Proof.
  destruct (success_stores_candidate_text sample_number_to_string sample_string_to_number
              (candidate_response "A short summary.") "A short summary." eq_refl)
    as [Hpage Hattempt].
  split; [reflexivity|]. split; [reflexivity|].
  split; [exact (Hpage summarizing_app 0 _ eq_refl)|].
  split; [reflexivity|].
  exact (Hattempt (answering (Responded true (candidate_response "A short summary.")))
           extracted_state (request_for (spec_extracted_text two_pages)) eq_refl eq_refl).
Defined.



(** A second attempt on the small document, and the answer to a request
    in flight. *)
Lemma passing_attempt_clears_previous_result_witness :
  snd (summarizeText_begin summarized_state)
  = Some (request_for (spec_extracted_text two_pages)) /\
  summary summarized_state = JSString "An older summary." /\
  summary (fst (summarizeText_begin summarized_state)) = JSString "" /\
  error (fst (summarizeText_begin summarized_state)) = "" /\
  snd (summarizeText_begin initial_state) = None /\
  error (fst (summarizeText_begin initial_state)) = MSG_NO_TEXT /\
  summary (ui summarizing_app) = JSString "" /\
  success_among sample_number_to_string sample_string_to_number
    [FetchSettle 0 (Responded true (candidate_response "A short summary."))].
Proof.
  destruct (passing_attempt_clears_previous_result sample_number_to_string
              sample_string_to_number summarized_state) as (Hpass & _ & Hrun).
  destruct (passing_attempt_clears_previous_result sample_number_to_string
              sample_string_to_number initial_state) as (_ & Hguard & _).
  destruct (Hpass (request_for (spec_extracted_text two_pages)) eq_refl) as [A B].
  destruct (Hguard eq_refl) as [_ C].
  split; [reflexivity|]. split; [reflexivity|]. split; [exact A|]. split; [exact B|].
  split; [reflexivity|]. split; [exact C|]. split; [reflexivity|].
  refine (Hrun [FetchSettle 0 (Responded true (candidate_response "A short summary."))]
            summarizing_app
            {| ui := {| pdfFile := Some small_pdf;
                        extractedText := spec_extracted_text two_pages;
                        summary := JSString "A short summary.";
                        loading := false; error := "" |};
               reading := []; fetching := [] |}
            eq_refl eq_refl _).
  discriminate.
Defined.

(** A document of two blank pages. *)
Lemma text_is_empty_only_without_pages_witness :
  pdfjsLib blank_window = Some blank_pdfjs /\
  yields_fragments (sample_document blank_pages) blank_pages /\
  blank_pages <> [] /\
  displayable (summary (ui reading_app)) = true /\
  extractedText (snd (reader_onload blank_window (bytes small_pdf) (ui reading_app)))
  = LF ++ LF /\
  summarize_button_enabled (snd (reader_onload blank_window (bytes small_pdf) (ui reading_app)))
  = true /\
  exists v,
    render sample_number_to_string
      (snd (reader_onload blank_window (bytes small_pdf) (ui reading_app))) = Normal v /\
    summarize_button v = Some {| disabled := false; caption := "Summarize PDF" |}.
Proof.
  split; [reflexivity|]. split; [apply sample_document_yields|]. split; [discriminate|].
  split; [reflexivity|].
  destruct (text_is_empty_only_without_pages sample_number_to_string
              blank_window blank_pdfjs (bytes small_pdf)
              (sample_document blank_pages) blank_pages (ui reading_app)
              eq_refl eq_refl (sample_document_yields blank_pages)) as (_ & A & B).
  assert (Hpages : blank_pages <> []) by discriminate.
  destruct (A Hpages) as [A1 A2].
  split.
  - apply B. intros fragments [<-|[<-|[]]]; reflexivity.
  - split; [exact A1 | exact (A2 eq_refl)].
Defined.

(** The endpoint answers the request in flight with a part that has no
    text. *)
Lemma success_stores_the_text_field_as_it_is_witness :
  member "candidates" textless_response
  = JSArray [JSObject [("content",
                        JSObject [("parts", JSArray [JSObject [("inlineData", JSString "")]]);
                                  ("role", JSString "model")])]] /\
  error (ui summarizing_app) = "" /\
  summary (snd (summarizeText_resume sample_number_to_string sample_string_to_number
                  (Responded true textless_response) (ui summarizing_app)))
  = JSUndefined /\
  error (snd (summarizeText_resume sample_number_to_string sample_string_to_number
                (Responded true textless_response) (ui summarizing_app)))
  = "" /\
  exists v,
    render sample_number_to_string
      (snd (summarizeText_resume sample_number_to_string sample_string_to_number
              (Responded true textless_response) (ui summarizing_app))) = Normal v /\
    summary_view v = NoSummary /\
    alert v = None.
Proof.
  split; [reflexivity|]. split; [reflexivity|].
  destruct (success_stores_the_text_field_as_it_is
              sample_number_to_string sample_string_to_number
              textless_response
              (JSObject [("content",
                          JSObject [("parts", JSArray [JSObject [("inlineData", JSString "")]]);
                                    ("role", JSString "model")])])
              (JSObject [("inlineData", JSString "")]) [] [] (ui summarizing_app)
              eq_refl eq_refl eq_refl) as (A & B & _ & C & _).
  split; [exact A|]. split; [exact B|].
  destruct (C eq_refl) as (v & Hv & Hsum & Halert).
  exists v. split; [exact Hv|]. split; [exact Hsum | exact (Halert eq_refl)].
Defined.

(** After the small document was summarized; and after an answer whose
    text is an object. *)
Lemma page_between_operations_witness :
  render sample_number_to_string
    (perform_all sample_number_to_string sample_string_to_number
       summarize_small_document initial_state) = Normal summarized_view /\
  summary_view summarized_view <> NoSummary /\
  alert summarized_view = None /\
  summarize_button summarized_view
  = Some {| disabled := false; caption := "Summarize PDF" |} /\
  render sample_number_to_string
    (perform_all sample_number_to_string sample_string_to_number
       summarize_into_an_object initial_state) = Throw.
Proof.
  assert (Hview : summary_view summarized_view <> NoSummary) by discriminate.
  split; [reflexivity|]. split; [exact Hview|].
  split; [|split].
  - exact (proj1 (proj1 (proj2 (proj2 (page_between_operations
                                          sample_number_to_string sample_string_to_number
                                          summarize_small_document)
                                        summarized_view eq_refl)) Hview)).
  - exact (proj2 (proj1 (proj2 (proj2 (page_between_operations
                                          sample_number_to_string sample_string_to_number
                                          summarize_small_document)
                                        summarized_view eq_refl)) Hview)).
  - refine (proj2 (proj1 (page_between_operations
                            sample_number_to_string sample_string_to_number
                            summarize_into_an_object)) _).
    split; reflexivity.
Defined.

Lemma page_while_busy_witness :
  is_pdf small_pdf /\
  render sample_number_to_string (fst (handleFileChange (Some small_pdf) initial_state))
  = Normal {| upload_caption := "Selected: small.pdf";
              spinner := Some "Extracting text...";
              alert := None;
              summarize_button := None;
              summary_view := NoSummary |} /\
  snd (summarizeText_begin extracted_state)
  = Some (request_for (spec_extracted_text two_pages)) /\
  render sample_number_to_string (fst (summarizeText_begin extracted_state))
  = Normal {| upload_caption := "Selected: small.pdf";
              spinner := Some "Summarizing...";
              alert := None;
              summarize_button := Some {| disabled := true; caption := "Summarizing..." |};
              summary_view := NoSummary |}.
Proof.
  split; [reflexivity|]. split.
  - exact (proj1 (page_while_busy sample_number_to_string small_pdf initial_state) eq_refl).
  - split; [reflexivity|].
    exact (proj2 (page_while_busy sample_number_to_string small_pdf extracted_state)
             (request_for (spec_extracted_text two_pages)) eq_refl).
Defined.

(** A text file is picked while the request for the small document is in
    flight. *)
Lemma rejected_selection_while_busy_witness :
  ~ is_pdf notes_txt /\
  loading (ui summarizing_app) = true /\
  render sample_number_to_string
    (fst (handleFileChange (Some notes_txt) (ui summarizing_app)))
  = Normal {| upload_caption := "Upload a PDF Document";
              spinner := Some "Extracting text...";
              alert := Some MSG_NOT_A_PDF;
              summarize_button := None;
              summary_view := NoSummary |}.
Proof.
  assert (Hno : forall f, Some notes_txt = Some f -> ~ is_pdf f).
  { intros f E. injection E as <-. discriminate. }
  split; [exact (Hno notes_txt eq_refl)|]. split; [reflexivity|].
  exact (proj2 (rejected_selection_while_busy sample_number_to_string
                  (Some notes_txt) (ui summarizing_app) Hno) eq_refl).
Defined.

(** The request for the small document is answered with an error
    object. *)
Lemma alert_shows_only_controller_messages_witness :
  run sample_number_to_string sample_string_to_number api_error_events initial_app
  = Some api_error_app /\
  error (ui api_error_app) = "API Error: API key not valid." /\
  message_after sample_number_to_string api_error_events (error (ui api_error_app)).
Proof.
  split; [reflexivity|]. split; [reflexivity|].
  exact (alert_shows_only_controller_messages sample_number_to_string sample_string_to_number
           api_error_events api_error_app eq_refl).
Defined.
